(** * scripts/generate-image.py: a shallow embedding and its properties

    The script reads a credential from the environment, sends one HTTP POST
    to the Gemini image endpoint, pulls a base64 payload out of the JSON
    answer, decodes it with Pillow and saves it under [public/images].

    Python values are modelled as the interpreter has them: [str] is a
    sequence of Unicode code points, a parsed JSON document is a tree of
    [None]/[bool]/[int]/[float]/[str]/[list]/[dict], exceptions are values
    of an error type, and everything the script does to the outside world
    (environment, clock, network, standard streams, file system) is a field
    of an explicit [world] that is threaded through a state-and-exception
    monad. *)

From Stdlib Require Import ZArith NArith List Ascii String.
From Stdlib.Strings Require Import Byte.
From Stdlib Require Import DecimalString Floats.SpecFloat.
From stdpp Require Import base option list gmap.

Local Open Scope N_scope.

(** ** Python strings *)

(** A Python [str] is a list of code points. *)
Abbreviation pystr := (list N).
Abbreviation bytes := (list byte).

(** ASCII literals of the source are written as Rocq strings and read
    through [u]. *)
Definition u (s : string) : pystr := N_of_ascii <$> list_ascii_of_string s.

Definition SPACE : N := 32.
Definition HYPHEN : N := 45.
Definition UNDERSCORE : N := 95.

Fixpoint pystr_eqb (a b : pystr) : bool :=
  match a, b with
  | [], [] => true
  | x :: a', y :: b' => (x =? y) && pystr_eqb a' b'
  | _, _ => false
  end.

Fixpoint startswith (s p : pystr) : bool :=
  match p, s with
  | [], _ => true
  | y :: p', x :: s' => (x =? y) && startswith s' p'
  | _ :: _, [] => false
  end.

(** [needle in hay] for two strings. *)
Fixpoint str_contains (hay needle : pystr) : bool :=
  startswith hay needle ||
  match hay with
  | [] => false
  | _ :: hay' => str_contains hay' needle
  end.

(** [msg] has [x] as a contiguous piece. *)
Definition contains (msg x : pystr) : Prop :=
  exists pre post, msg = pre ++ x ++ post.

(** ** Parsed JSON, as [response.json()] returns it *)

#[warnings="-register-all"]
Inductive json : Type :=
| JNull
| JBool (b : bool)
| JInt (z : Z)
| JFloat (f : spec_float)
| JStr (s : pystr)
| JArr (items : list json)
| JObj (items : list (pystr * json)).

(** A [dict] keeps its items in insertion order; keys are unique, a lookup
    returns the item stored under the key. *)
Fixpoint dict_lookup {A} (k : pystr) (items : list (pystr * A)) : option A :=
  match items with
  | [] => None
  | (k', v) :: rest => if pystr_eqb k k' then Some v else dict_lookup k rest
  end.

(** Truth value of a Python object ([if x:], [not x]). *)
Definition truthy (v : json) : bool :=
  match v with
  | JNull => false
  | JBool b => b
  | JInt z => negb (z =? 0)%Z
  | JFloat (S754_zero _) => false
  | JFloat _ => true
  | JStr s => negb (pystr_eqb s [])
  | JArr l => match l with [] => false | _ => true end
  | JObj l => match l with [] => false | _ => true end
  end.

(** ** Exceptions *)

Inductive exn : Type :=
| ValueError (msg : pystr)
| JSONDecodeError (msg : pystr)          (* a subclass of ValueError *)
| HTTPError (msg : pystr) (status : Z)   (* requests.exceptions.HTTPError,
                                            with the status of its response *)
| Timeout (msg : pystr)                  (* requests.exceptions.Timeout *)
| RequestException (msg : pystr)         (* any other requests exception *)
| AttributeError (obj : json) (attr : pystr)
| NotIterable (obj : json)               (* TypeError: for ... in obj *)
| NotContainer (obj : json)              (* TypeError: x in obj *)
| BadSubscript (obj : json) (key : pystr) (* TypeError: obj[key] *)
| KeyError (key : pystr).

Definition is_ValueError (e : exn) : bool :=
  match e with
  | ValueError _ | JSONDecodeError _ => true
  | _ => false
  end.

Inductive outcome (A : Type) : Type :=
| Return (a : A)
| Raise (e : exn).
Arguments Return {A} a.
Arguments Raise {A} e.

Definition obind {A B} (m : outcome A) (k : A -> outcome B) : outcome B :=
  match m with
  | Return a => k a
  | Raise e => Raise e
  end.

Declare Scope py_scope.
Delimit Scope py_scope with py.
Notation "'let?' x ':=' m 'in' k" := (obind m (fun x => k))
  (at level 10, x name, m at level 100, k at level 200) : py_scope.
Local Open Scope py_scope.

(** ** The object protocol on JSON values *)

(** [obj.get(key, default)]: only a dict has [get]. *)
Definition py_get (obj : json) (key : pystr) (default : json) : outcome json :=
  match obj with
  | JObj items =>
      Return (match dict_lookup key items with Some v => v | None => default end)
  | _ => Raise (AttributeError obj (u "get"))
  end.

(** The items a [for] loop sees. *)
Definition py_iter (obj : json) : outcome (list json) :=
  match obj with
  | JArr items => Return items
  | JObj items => Return ((fun kv => JStr (fst kv)) <$> items)
  | JStr s => Return ((fun c => JStr [c]) <$> s)
  | _ => Raise (NotIterable obj)
  end.

Definition is_str (key : pystr) (v : json) : bool :=
  match v with
  | JStr s => pystr_eqb s key
  | _ => false
  end.

(** [key in obj] for a string [key]. *)
Definition py_in (key : pystr) (obj : json) : outcome bool :=
  match obj with
  | JObj items => Return (bool_decide (is_Some (dict_lookup key items)))
  | JArr items => Return (existsb (is_str key) items)
  | JStr s => Return (str_contains s key)
  | _ => Raise (NotContainer obj)
  end.

(** [obj[key]] for a string [key]. *)
Definition py_getitem (obj : json) (key : pystr) : outcome json :=
  match obj with
  | JObj items =>
      match dict_lookup key items with
      | Some v => Return v
      | None => Raise (KeyError key)
      end
  | _ => Raise (BadSubscript obj key)
  end.

(** ** Extraction of the image payload (generate_image, the two loops) *)

(** The inner loop over the parts of one candidate.  [image_data] is the
    value the variable holds when the loop starts; the loop assigns it and
    breaks at the first part that has the key. *)
Fixpoint scan_parts (parts : list json) (image_data : json) : outcome json :=
  match parts with
  | [] => Return image_data
  | part :: rest =>
      let? found := py_in (u "inlineData") part in
      if (found : bool) then
        let? inline := py_getitem part (u "inlineData") in
        py_getitem inline (u "data")
      else scan_parts rest image_data
  end.

(** The outer loop over the candidates, with its [if image_data: break]. *)
Fixpoint scan_candidates (candidates : list json) (image_data : json)
  : outcome json :=
  match candidates with
  | [] => Return image_data
  | candidate :: rest =>
      let? content := py_get candidate (u "content") (JObj []) in
      let? parts := py_get content (u "parts") (JArr []) in
      let? parts := py_iter parts in
      let? image_data := scan_parts parts image_data in
      if truthy image_data then Return image_data
      else scan_candidates rest image_data
  end.

(** [image_data] after both loops, starting from [None]. *)
Definition find_image_data (result : json) : outcome json :=
  let? candidates := py_get result (u "candidates") (JArr []) in
  let? candidates := py_iter candidates in
  scan_candidates candidates JNull.

(** ** Numbers as text *)

Definition str_of_N (n : N) : pystr :=
  u (NilEmpty.string_of_uint (N.to_uint n)).

Definition str_of_Z (z : Z) : pystr :=
  match z with
  | Zneg p => HYPHEN :: str_of_N (Npos p)
  | _ => str_of_N (Z.to_N z)
  end.

(** [%0wd]: decimal, padded with zeros on the left up to [w] characters. *)
Definition zero_pad (w : nat) (n : N) : pystr :=
  let s := str_of_N n in
  replicate (w - length s) 48 ++ s.



(** A decimal digit, and the check that every number below [bound] is
    printed by [zero_pad width] with digits only. *)
Definition is_digit (c : N) : bool := (48 <=? c) && (c <=? 57).

Definition pads_with_digits (width : nat) (bound : N) : bool :=
  forallb (fun n => forallb is_digit (zero_pad width n))
          (N.of_nat <$> seq 0 (N.to_nat bound)).

(** ** The clock *)

(** What [datetime.now()] returns. *)
Record datetime : Type := Datetime {
  year : N; month : N; day : N;
  hour : N; minute : N; second : N;
  microsecond : N
}.

(** The ranges the [datetime] type guarantees. *)
Definition valid_datetime (t : datetime) : Prop :=
  1 <= year t <= 9999 /\ 1 <= month t <= 12 /\ 1 <= day t <= 31 /\
  hour t < 24 /\ minute t < 60 /\ second t < 60 /\ microsecond t < 1000000.


(** [t.strftime("%Y%m%d_%H%M%S")]. *)
Definition strftime_Ymd_HMS (t : datetime) : pystr :=
  zero_pad 4 (year t) ++ zero_pad 2 (month t) ++ zero_pad 2 (day t) ++
  [UNDERSCORE] ++
  zero_pad 2 (hour t) ++ zero_pad 2 (minute t) ++ zero_pad 2 (second t).

(** ** Character classes *)

Definition ascii_isalnum (c : N) : bool :=
  ((48 <=? c) && (c <=? 57)) || ((65 <=? c) && (c <=? 90)) ||
  ((97 <=? c) && (c <=? 122)).

(** [str.isspace] for one code point (the Unicode White_Space set plus the
    four information separators). *)
Definition isspace (c : N) : bool :=
  ((9 <=? c) && (c <=? 13)) || ((28 <=? c) && (c <=? 32)) ||
  (c =? 0x85) || (c =? 0xa0) || (c =? 0x1680) ||
  ((0x2000 <=? c) && (c <=? 0x200a)) ||
  (c =? 0x2028) || (c =? 0x2029) || (c =? 0x202f) || (c =? 0x205f) ||
  (c =? 0x3000).

(** ** What the script imports

    The interpreter and the packages the script calls into are not part of
    the repository.  Their functions are the fields of [PyLib]; the script
    is modelled once, for every implementation of these fields. *)
Class PyLib : Type := {
  (** [c.isalnum()] for a code point outside ASCII (the Unicode tables) *)
  isalnum_nonascii : N -> bool;
  isalnum_nonascii_not_space :
    forall c, isalnum_nonascii c = true -> isspace c = false;
  (** [str(result)] of a parsed document *)
  str_of_json : json -> pystr;
  (** [str(e)] of the exceptions the interpreter itself raises *)
  str_of_builtin : exn -> pystr;
  (** [base64.b64decode(x)]: the bytes, or the text of what it raises *)
  b64decode : json -> bytes + pystr;
  (** a Pillow image *)
  Image : Type;
  (** [Image.open(BytesIO(raw))]: the image, or the text of what it raises *)
  Image_open : bytes -> Image + pystr;
  (** the contents of the file that [img.save(path)] writes for a [.png]
      path *)
  png_bytes : Image -> bytes;
  width : Image -> N;
  height : Image -> N
}.

(** ** The world *)

Record request : Type := Request {
  req_url : pystr;
  req_headers : list (pystr * pystr);
  req_json : json;
  req_timeout : Z
}.

Record response : Type := Response {
  status_code : Z;
  reason : pystr;
  resp_url : pystr;
  (** the parsed body, or the text of the error [response.json()] raises *)
  body : json + pystr
}.

(** How one call of [requests.post] ends. *)
Inductive post_outcome : Type :=
| Responded (r : response)
| TimedOut (msg : pystr)
| TransportFailed (msg : pystr).

Record world : Type := World {
  environ : gmap pystr pystr;
  clock : datetime;
  (** the answer to the [i]-th request of the process *)
  network : nat -> request -> post_outcome;
  (** the requests issued so far, oldest first *)
  sent : list request;
  (** one entry per call of [print] *)
  stdout : list pystr;
  stderr : list pystr;
  dirs : gset pystr;
  files : gmap pystr bytes
}.

Definition log_request (r : request) (w : world) : world :=
  World (environ w) (clock w) (network w) (sent w ++ [r])
        (stdout w) (stderr w) (dirs w) (files w).
Definition write_stdout (s : pystr) (w : world) : world :=
  World (environ w) (clock w) (network w) (sent w)
        (stdout w ++ [s]) (stderr w) (dirs w) (files w).
Definition write_stderr (s : pystr) (w : world) : world :=
  World (environ w) (clock w) (network w) (sent w)
        (stdout w) (stderr w ++ [s]) (dirs w) (files w).
Definition add_dirs (d : gset pystr) (w : world) : world :=
  World (environ w) (clock w) (network w) (sent w)
        (stdout w) (stderr w) (d ∪ dirs w) (files w).
Definition write_file (path : pystr) (data : bytes) (w : world) : world :=
  World (environ w) (clock w) (network w) (sent w)
        (stdout w) (stderr w) (dirs w) (<[path := data]> (files w)).

(** ** Statements: state and exceptions *)

Definition Py (A : Type) : Type := world -> outcome A * world.

Definition ret {A} (a : A) : Py A := fun w => (Return a, w).
Definition raise {A} (e : exn) : Py A := fun w => (Raise e, w).
Definition bind {A B} (m : Py A) (k : A -> Py B) : Py B :=
  fun w =>
    match m w with
    | (Return a, w') => k a w'
    | (Raise e, w') => (Raise e, w')
    end.
Definition lift {A} (o : outcome A) : Py A := fun w => (o, w).

Notation "x <- m ;; k" := (bind m (fun x => k))
  (at level 100, m at next level, right associativity) : py_scope.
Notation "m ;; k" := (bind m (fun _ => k))
  (at level 100, right associativity) : py_scope.

(** [try: body except ...]: [handler e] is the body of the first [except]
    clause that matches [e], if there is one. *)
Definition try_except {A} (body : Py A) (handler : exn -> option (Py A))
  : Py A :=
  fun w =>
    match body w with
    | (Raise e, w') =>
        match handler e with
        | Some h => h w'
        | None => (Raise e, w')
        end
    | r => r
    end.

Definition when (b : bool) (m : Py unit) : Py unit :=
  if b then m else ret tt.

Definition print (s : pystr) : Py unit := fun w => (Return tt, write_stdout s w).
Definition environ_get (k : pystr) : Py (option pystr) :=
  fun w => (Return (environ w !! k), w).
Definition datetime_now : Py datetime := fun w => (Return (clock w), w).

(** [os.makedirs("public/images", exist_ok=True)] *)
Definition makedirs_public_images : Py unit :=
  fun w => (Return tt,
            add_dirs ({[ u "public" ]} ∪ {[ u "public/images" ]}) w).

(** ** The script *)

Definition NL : N := 10.

Definition GOOGLE_API_KEY : pystr := u "GOOGLE_API_KEY".

Definition API_KEY_PAGE : pystr := u "https://aistudio.google.com/apikey".

Definition missing_key_message : pystr :=
  u "GOOGLE_API_KEY environment variable not set." ++ [NL] ++
  u "Get your API key from: " ++ API_KEY_PAGE ++ [NL] ++
  u "Then set it: export GOOGLE_API_KEY='your-key-here'".

Definition url : pystr :=
  u "https://generativelanguage.googleapis.com/v1beta/models/gemini-2.5-flash-image:generateContent".

Definition headers (api_key : pystr) : list (pystr * pystr) :=
  [ (u "x-goog-api-key", api_key);
    (u "Content-Type", u "application/json") ].

(** The doubles that the literals [1.0] and [0.95] denote. *)
Definition float_1_0 : spec_float := S754_finite false 4503599627370496 (-52).
Definition float_0_95 : spec_float := S754_finite false 8556839292003942 (-53).

Definition generationConfig : json :=
  JObj [ (u "temperature", JFloat float_1_0);
         (u "topP", JFloat float_0_95);
         (u "topK", JInt 40);
         (u "maxOutputTokens", JInt 8192) ].

Definition payload (prompt : pystr) : json :=
  JObj [ (u "contents", JArr [ JObj [ (u "parts",
                                        JArr [ JObj [ (u "text", JStr prompt) ] ]) ] ]);
         (u "generationConfig", generationConfig) ].

(** [requests.post(url, headers=..., json=..., timeout=...)] *)
Definition requests_post (url : pystr) (headers : list (pystr * pystr))
    (json : json) (timeout : Z) : Py response :=
  fun w =>
    let req := Request url headers json timeout in
    let w' := log_request req w in
    match network w (length (sent w)) req with
    | Responded r => (Return r, w')
    | TimedOut msg => (Raise (Timeout msg), w')
    | TransportFailed msg => (Raise (RequestException msg), w')
    end.

(** [response.raise_for_status()] of the requests package: it builds a
    message for a 4xx or a 5xx status and raises an [HTTPError] when there
    is one. *)
Definition http_error_msg (r : response) : option pystr :=
  if ((400 <=? status_code r) && (status_code r <? 500))%Z then
    Some (str_of_Z (status_code r) ++ u " Client Error: " ++
          reason r ++ u " for url: " ++ resp_url r)
  else if ((500 <=? status_code r) && (status_code r <? 600))%Z then
    Some (str_of_Z (status_code r) ++ u " Server Error: " ++
          reason r ++ u " for url: " ++ resp_url r)
  else None.

Definition raise_for_status (r : response) : Py unit :=
  match http_error_msg r with
  | Some msg => raise (HTTPError msg (status_code r))
  | None => ret tt
  end.

(** [response.json()] *)
Definition response_json (r : response) : Py json :=
  match body r with
  | inl doc => ret doc
  | inr msg => raise (JSONDecodeError msg)
  end.

(** The [except] clauses around the request, in the order of the source.
    The [response] that the first clause inspects is the one bound in the
    [try] block, which is the response the [HTTPError] was raised for. *)
Definition request_handler {A} (e : exn) : option (Py A) :=
  match e with
  | HTTPError msg status_code =>
      Some (if (status_code =? 401)%Z then
              raise (ValueError (u "Invalid API key. Please check your GOOGLE_API_KEY."))
            else if (status_code =? 403)%Z then
              raise (ValueError (u "API key doesn't have required permissions."))
            else if (status_code =? 429)%Z then
              raise (ValueError (u "Rate limit exceeded. Please wait and try again."))
            else
              raise (ValueError (u "API request failed: " ++ msg)))
  | Timeout _ =>
      Some (raise (ValueError (u "API request timed out. Please try again.")))
  | RequestException msg =>
      Some (raise (ValueError (u "Network error: " ++ msg)))
  | _ => None
  end.

(** [str.strip()], [str.replace(' ', '_')] *)
Fixpoint lstrip (s : pystr) : pystr :=
  match s with
  | c :: s' => if isspace c then lstrip s' else s
  | [] => []
  end.
Definition rstrip (s : pystr) : pystr := rev (lstrip (rev s)).
Definition strip (s : pystr) : pystr := rstrip (lstrip s).

Definition replace_space_underscore (s : pystr) : pystr :=
  (fun c => if c =? SPACE then UNDERSCORE else c) <$> s.

Section Script.
Context {L : PyLib}.

Definition isalnum (c : N) : bool :=
  if c <? 128 then ascii_isalnum c else isalnum_nonascii c.

Definition str_of_exn (e : exn) : pystr :=
  match e with
  | ValueError msg | JSONDecodeError msg | HTTPError msg _
  | Timeout msg | RequestException msg => msg
  | _ => str_of_builtin e
  end.

(** The character test of the generator expression. *)
Definition kept (c : N) : bool :=
  isalnum c || (c =? SPACE) || (c =? HYPHEN) || (c =? UNDERSCORE).

(** ["".join(c if ... else '' for c in prompt[:30]).strip().replace(' ', '_')] *)
Definition safe_prompt (prompt : pystr) : pystr :=
  replace_space_underscore
    (strip (concat ((fun c => if kept c then [c] else []) <$> take 30 prompt))).

(** The payload of a parsed answer: both loops, then the
    [if not image_data: raise] that follows them. *)
Definition extract_image_data (result : json) : outcome json :=
  let? image_data := find_image_data result in
  if negb (truthy image_data) then
    Raise (ValueError (u "No image data received from API. Response: " ++
                       str_of_json result))
  else Return image_data.

(** The [try] block that turns the payload into an image: anything raised
    inside is re-raised as a [ValueError]. *)
Definition decode_image (image_data : json) : Py Image :=
  match b64decode image_data with
  | inr e => raise (ValueError (u "Failed to decode image data: " ++ e))
  | inl image_bytes =>
      match Image_open image_bytes with
      | inr e => raise (ValueError (u "Failed to decode image data: " ++ e))
      | inl img => ret img
      end
  end.

(** [img.save(output_path)] *)
Definition img_save (img : Image) (output_path : pystr) : Py unit :=
  fun w => (Return tt, write_file output_path (png_bytes img) w).

(** [not x] for an optional string ([None] and [""] are false). *)
Definition str_truthy (s : option pystr) : bool :=
  match s with
  | Some (_ :: _) => true
  | _ => false
  end.

(** Lines 74-89, the request and its [except] clauses. *)
Definition make_api_request (api_key prompt : pystr) : Py response :=
  try_except
    (response <- requests_post url (headers api_key) (payload prompt) 60 ;;
     raise_for_status response ;;
     ret response)
    request_handler.

(** Lines 92-139, from [response.json()] to the [return]. *)
Definition process_response (prompt : pystr) (output_filename : option pystr)
    (verbose : bool) (response : response) : Py pystr :=
  result <- response_json response ;;
  image_data <- lift (extract_image_data result) ;;
  when verbose (
    print ([0x2705] ++ u " Image received from API") ;;
    print ([0x1f4be] ++ u " Saving image...")) ;;
  img <- decode_image image_data ;;
  output_filename <-
    (if negb (str_truthy output_filename) then
       now <- datetime_now ;;
       let timestamp := strftime_Ymd_HMS now in
       ret (u "generated_" ++ safe_prompt prompt ++ u "_" ++ timestamp)
     else ret (default [] output_filename)) ;;
  makedirs_public_images ;;
  let output_path := u "public/images/" ++ output_filename ++ u ".png" in
  img_save img output_path ;;
  when verbose (
    print ([0x2728] ++ u " Image saved to: " ++ output_path) ;;
    print ([0x1f4d0] ++ u " Dimensions: " ++ str_of_N (width img) ++ u "x" ++
           str_of_N (height img))) ;;
  ret output_path.

Definition generate_image (prompt : pystr) (output_filename : option pystr)
    (verbose : bool) : Py pystr :=
  api_key <- environ_get GOOGLE_API_KEY ;;
  if negb (str_truthy api_key) then raise (ValueError missing_key_message)
  else
  let api_key := default [] api_key in
  when verbose (
    print ([0x1f4dd] ++ u " Prompt: " ++ prompt) ;;
    print ([0x1f3a8] ++ u " Generating image with Nano Banana...")) ;;
  response <- make_api_request api_key prompt ;;
  process_response prompt output_filename verbose response.

(** What [parser.parse_args()] returns. *)
Record Namespace : Type := Args {
  prompt : pystr;
  output : option pystr;
  quiet : bool
}.

(** The body of [main] after the arguments are parsed: the final world and
    the exit status of the process. *)
Definition main (args : Namespace) (w : world) : world * Z :=
  match generate_image (prompt args) (output args) (negb (quiet args)) w with
  | (Return output_path, w') =>
      if quiet args then (write_stdout output_path w', 0%Z) else (w', 0%Z)
  | (Raise e, w') =>
      if is_ValueError e then
        (write_stderr ([0x274c] ++ u " Error: " ++ str_of_exn e) w', 1%Z)
      else
        (write_stderr ([0x274c] ++ u " Unexpected error: " ++ str_of_exn e) w', 1%Z)
  end.

End Script.

(** ** The documented shape of an answer

    [{"candidates": [{"content": {"parts": [{"inlineData": {"data": ...}}]}}]}],
    where any field may be missing.  The views below read a parsed document
    against this shape and give [None] when it does not fit. *)

Definition candidates_of (doc : json) : option (list json) :=
  match doc with
  | JObj items =>
      match dict_lookup (u "candidates") items with
      | None => Some []
      | Some (JArr candidates) => Some candidates
      | Some _ => None
      end
  | _ => None
  end.

Definition parts_of (candidate : json) : option (list json) :=
  match candidate with
  | JObj items =>
      match dict_lookup (u "content") items with
      | None => Some []
      | Some (JObj content) =>
          match dict_lookup (u "parts") content with
          | None => Some []
          | Some (JArr parts) => Some parts
          | Some _ => None
          end
      | Some _ => None
      end
  | _ => None
  end.

(** A part is an object; its [inlineData], when present, is an object with
    a [data] field. *)
Definition part_ok (part : json) : bool :=
  match part with
  | JObj items =>
      match dict_lookup (u "inlineData") items with
      | None => true
      | Some (JObj inline) => bool_decide (is_Some (dict_lookup (u "data") inline))
      | Some _ => false
      end
  | _ => false
  end.

(** The [data] of the inline-data field of a part, if it has one. *)
Definition inline_data (part : json) : option json :=
  match part with
  | JObj items =>
      match dict_lookup (u "inlineData") items with
      | Some (JObj inline) => dict_lookup (u "data") inline
      | _ => None
      end
  | _ => None
  end.

(** The [data] of the first part of a candidate that has an inline-data
    field. *)
Definition first_inline (parts : list json) : option json :=
  head (omap inline_data parts).

(** The parts of every candidate, in order, of a document of the
    documented shape. *)
Definition answer_parts (doc : json) : option (list (list json)) :=
  candidates ← candidates_of doc;
  pss ← mapM parts_of candidates;
  if forallb (forallb part_ok) pss then Some pss else None.

(** The first truthy value among the first inline-data fields of the
    candidates. *)
Definition first_truthy_inline (pss : list (list json)) : option json :=
  head (List.filter truthy (omap first_inline pss)).

(** A part of the documented shape that has no inline-data field. *)
Definition without_inline_data (part : json) : bool :=
  part_ok part &&
  match inline_data part with
  | None => true
  | Some _ => false
  end.

(** A candidate of the documented shape whose first inline-data value, if
    it has one, is falsy. *)
Definition passed_over (candidate : json) : bool :=
  match parts_of candidate with
  | Some parts =>
      forallb part_ok parts &&
      match first_inline parts with
      | Some data => negb (truthy data)
      | None => true
      end
  | None => false
  end.

(** ** Names for the file the script writes *)

Section Paths.
Context {L : PyLib}.

Definition derived_filename (prompt : pystr) (t : datetime) : pystr :=
  u "generated_" ++ safe_prompt prompt ++ u "_" ++ strftime_Ymd_HMS t.

Definition target_path (prompt : pystr) (output_filename : option pystr)
    (t : datetime) : pystr :=
  u "public/images/" ++
  (if str_truthy output_filename then default [] output_filename
   else derived_filename prompt t) ++
  u ".png".

(** What a verbose run prints before the request, and what it prints
    after an answer that carries an image. *)
Definition early_lines (prompt : pystr) : list pystr :=
  [ [0x1f4dd] ++ u " Prompt: " ++ prompt;
    [0x1f3a8] ++ u " Generating image with Nano Banana..." ].

Definition late_lines (output_path : pystr) (img : Image) : list pystr :=
  [ [0x2705] ++ u " Image received from API";
    [0x1f4be] ++ u " Saving image...";
    [0x2728] ++ u " Image saved to: " ++ output_path;
    [0x1f4d0] ++ u " Dimensions: " ++ str_of_N (width img) ++ u "x" ++
      str_of_N (height img) ].

Definition progress_lines (prompt output_path : pystr) (img : Image)
  : list pystr :=
  early_lines prompt ++ late_lines output_path img.

(** The world after the first two [print]s of a verbose run. *)
Definition announced (verbose : bool) (prompt : pystr) (w : world) : world :=
  World (environ w) (clock w) (network w) (sent w)
        (stdout w ++ (if verbose then early_lines prompt else []))
        (stderr w) (dirs w) (files w).

(** The request of one invocation. *)
Definition the_request (api_key prompt : pystr) : request :=
  Request url (headers api_key) (payload prompt) 60.

End Paths.

(** ** A small runtime

    One implementation of [PyLib], to run the script on concrete inputs:
    [isalnum] knows Latin-1, [b64decode] is a strict RFC 4648 decoder for
    strings, an image is a byte string that starts with the PNG signature
    and is saved as it came, and [str()] prints the way the interpreter
    does for documents without floats and without quotes inside strings. *)
Module Demo.

Definition latin1_isalnum (c : N) : bool :=
  (c =? 0xaa) || ((0xb2 <=? c) && (c <=? 0xb3)) || (c =? 0xb5) ||
  ((0xb9 <=? c) && (c <=? 0xba)) || ((0xbc <=? c) && (c <=? 0xbe)) ||
  ((0xc0 <=? c) && (c <=? 0xd6)) || ((0xd8 <=? c) && (c <=? 0xf6)) ||
  ((0xf8 <=? c) && (c <=? 0xff)).

Definition b64_digit (c : N) : option N :=
  if (65 <=? c) && (c <=? 90) then Some (c - 65)
  else if (97 <=? c) && (c <=? 122) then Some (c - 71)
  else if (48 <=? c) && (c <=? 57) then Some (c + 4)
  else if c =? 43 then Some 62
  else if c =? 47 then Some 63
  else None.

Definition byte_of_N (n : N) : byte :=
  default x00 (Byte.of_N (n mod 256)).

Definition PAD : N := 61.

Fixpoint b64_quads (s : pystr) : option bytes :=
  match s with
  | [] => Some []
  | a :: b :: c :: d :: rest =>
      va ← b64_digit a;
      vb ← b64_digit b;
      if (c =? PAD) && (d =? PAD) then
        match rest with
        | [] => Some [byte_of_N (va * 4 + vb / 16)]
        | _ => None
        end
      else
        vc ← b64_digit c;
        if d =? PAD then
          match rest with
          | [] => Some [byte_of_N (va * 4 + vb / 16);
                        byte_of_N (vb * 16 + vc / 4)]
          | _ => None
          end
        else
          vd ← b64_digit d;
          tl ← b64_quads rest;
          Some (byte_of_N (va * 4 + vb / 16) ::
                byte_of_N (vb * 16 + vc / 4) ::
                byte_of_N (vc * 64 + vd) :: tl)
  | _ => None
  end.

Definition decode_base64 (x : json) : bytes + pystr :=
  match x with
  | JStr s =>
      match b64_quads s with
      | Some raw => inl raw
      | None => inr (u "Incorrect padding")
      end
  | _ => inr (u "argument should be a bytes-like object or ASCII string")
  end.

Definition PNG_SIGNATURE : bytes :=
  [x89; x50; x4e; x47; x0d; x0a; x1a; x0a].

Fixpoint bytes_startswith (s p : bytes) : bool :=
  match p, s with
  | [], _ => true
  | y :: p', x :: s' => Byte.eqb x y && bytes_startswith s' p'
  | _ :: _, [] => false
  end.

Definition open_png (raw : bytes) : bytes + pystr :=
  if bytes_startswith raw PNG_SIGNATURE then inl raw
  else inr (u "cannot identify image file").

(** A big-endian 32-bit field of the header. *)
Definition be32 (raw : bytes) (offset : nat) : N :=
  foldl (fun acc b => acc * 256 + Byte.to_N b) 0 (take 4 (drop offset raw)).

Fixpoint show_json (v : json) : pystr :=
  match v with
  | JNull => u "None"
  | JBool true => u "True"
  | JBool false => u "False"
  | JInt z => str_of_Z z
  | JFloat _ => u "<float>"
  | JStr s => u "'" ++ s ++ u "'"
  | JArr items =>
      u "[" ++
      (fix elements (l : list json) : pystr :=
         match l with
         | [] => []
         | x :: l' =>
             show_json x ++
             match l' with [] => [] | _ => u ", " ++ elements l' end
         end) items ++
      u "]"
  | JObj items =>
      u "{" ++
      (fix elements (l : list (pystr * json)) : pystr :=
         match l with
         | [] => []
         | (k, x) :: l' =>
             u "'" ++ k ++ u "': " ++ show_json x ++
             match l' with [] => [] | _ => u ", " ++ elements l' end
         end) items ++
      u "}"
  end.

Definition show_builtin (e : exn) : pystr :=
  match e with
  | AttributeError _ attr => u "object has no attribute '" ++ attr ++ u "'"
  | NotIterable _ => u "object is not iterable"
  | NotContainer _ => u "argument is not iterable"
  | BadSubscript _ _ => u "object is not subscriptable by a string"
  | KeyError key => u "'" ++ key ++ u "'"
  | _ => []
  end.

Lemma latin1_isalnum_not_space c :
  latin1_isalnum c = true -> isspace c = false.
Proof.
  unfold latin1_isalnum, isspace. intros H.
  apply not_true_is_false. intros Hs.
  repeat rewrite ?orb_true_iff, ?andb_true_iff, ?N.leb_le, ?N.eqb_eq in H.
  repeat rewrite ?orb_true_iff, ?andb_true_iff, ?N.leb_le, ?N.eqb_eq in Hs.
  lia.
Qed.

Definition lib : PyLib := {|
  isalnum_nonascii := latin1_isalnum;
  isalnum_nonascii_not_space := latin1_isalnum_not_space;
  str_of_json := show_json;
  str_of_builtin := show_builtin;
  b64decode := decode_base64;
  Image := bytes;
  Image_open := open_png;
  png_bytes := fun img => img;
  width := fun img => be32 img 16;
  height := fun img => be32 img 20
|}.

(** The shape the API documents: a candidate with one inline-data part,
    and an answer made of candidates. *)
Definition candidate (data : json) : json :=
  JObj [ (u "content",
          JObj [ (u "parts",
                  JArr [ JObj [ (u "inlineData",
                                JObj [ (u "data", data) ]) ] ]) ]) ].

Definition answer (candidates : list json) : json :=
  JObj [ (u "candidates", JArr candidates) ].

Definition api_response (data : json) : json := answer [candidate data].

(** The base64 text of a 33-byte PNG header (3 pixels wide, 2 high). *)
Definition PNG_3x2 : pystr := u "iVBORw0KGgoAAAANSUhEUgAAAAMAAAACCAAAAAC4HznG".

Definition noon : datetime := Datetime 2024 1 15 14 30 22 0.

Definition ok_response (doc : json) : response :=
  Response 200 (u "OK") url (inl doc).

(** A world with a credential whose network answers every request with
    [answer]. *)
Definition world_with (reply : post_outcome) : world :=
  World {[ GOOGLE_API_KEY := u "secret" ]} noon (fun _ _ => reply)
        [] [] [] ∅ ∅.


End Demo.

(** * Properties *)

Local Close Scope py_scope.

Arguments u : simpl never.
Arguments str_of_N : simpl never.
Arguments str_of_Z : simpl never.
Arguments zero_pad : simpl never.
Arguments payload : simpl never.
Arguments headers : simpl never.
Arguments safe_prompt : simpl never.
Arguments strftime_Ymd_HMS : simpl never.

(** ** Strings *)

Lemma pystr_eqb_eq a b : pystr_eqb a b = true <-> a = b.
Proof.
  revert b. induction a as [|x a IH]; intros [|y b]; simpl; try easy.
  rewrite andb_true_iff, N.eqb_eq, IH. split.
  - intros [-> ->]. reflexivity.
  - intros [= -> ->]. auto.
Qed.

Lemma contains_app_r pre x : contains (pre ++ x) x.
Proof. exists pre, []. by rewrite app_nil_r. Qed.

Lemma last_rev {A} (l : list A) : last (rev l) = head l.
Proof. destruct l as [|x l]; [done|]. simpl. apply last_snoc. Qed.

Lemma lstrip_split s :
  exists l,
    s = l ++ lstrip s /\
    Forall (fun c => isspace c = true) l /\
    (forall c, head (lstrip s) = Some c -> isspace c = false).
Proof.
  induction s as [|c s (l & Hl & Hsp & Hhd)]; [by exists []|].
  simpl. destruct (isspace c) eqn:Hc.
  - exists (c :: l). split; [by rewrite Hl at 1|]. split; [|done].
    by constructor.
  - exists []. split; [done|]. split; [done|]. by intros ? [= <-].
Qed.

Lemma strip_split s :
  exists l r,
    s = l ++ strip s ++ r /\
    Forall (fun c => isspace c = true) l /\
    Forall (fun c => isspace c = true) r /\
    (forall c, head (strip s) = Some c -> isspace c = false) /\
    (forall c, last (strip s) = Some c -> isspace c = false).
Proof.
  destruct (lstrip_split s) as (l & Hl & Hlsp & Hlhd).
  destruct (lstrip_split (rev (lstrip s))) as (r & Hr & Hrsp & Hrhd).
  assert (Hmid : lstrip s = strip s ++ rev r).
  { unfold strip, rstrip. rewrite <- rev_app_distr, <- Hr.
    by rewrite rev_involutive. }
  exists l, (rev r). split; [by rewrite <- Hmid|]. split; [done|].
  split; [by apply Forall_rev|]. split.
  - intros c Hc. apply Hlhd. rewrite Hmid.
    by destruct (strip s); [|injection Hc as ->].
  - intros c Hc. apply Hrhd. unfold strip, rstrip in Hc.
    by rewrite last_rev in Hc.
Qed.

(** ** The two loops *)

Lemma scan_parts_shaped parts image_data :
  forallb part_ok parts = true ->
  scan_parts parts image_data =
    Return (default image_data (first_inline parts)).
Proof.
  induction parts as [|part parts IH]; intros Hok; [reflexivity|].
  simpl in Hok. apply andb_true_iff in Hok as [Hp Hps].
  destruct part as [| | | | |?|items]; try discriminate.
  unfold first_inline. simpl.
  destruct (dict_lookup (u "inlineData") items) as [inline|] eqn:Hin.
  - rewrite bool_decide_eq_true_2 by eauto. simpl in *. rewrite Hin in *.
    destruct inline as [| | | | |?|fields]; try discriminate.
    apply bool_decide_eq_true in Hp as [data Hdata]. simpl.
    rewrite Hdata. reflexivity.
  - rewrite bool_decide_eq_false_2 by (intros [? ?]; discriminate).
    simpl. apply IH, Hps.
Qed.

Lemma parts_of_iter candidate parts :
  parts_of candidate = Some parts ->
  (let? content := py_get candidate (u "content") (JObj []) in
   let? parts := py_get content (u "parts") (JArr []) in
   py_iter parts)%py = Return parts.
Proof.
  unfold parts_of, py_get. intros H.
  destruct candidate as [| | | | |?|items]; try discriminate. simpl.
  destruct (dict_lookup (u "content") items) as [content|]; simpl.
  - destruct content as [| | | | |?|fields]; try discriminate. simpl.
    destruct (dict_lookup (u "parts") fields) as [ps|]; simpl.
    + destruct ps; try discriminate. simpl. congruence.
    + congruence.
  - congruence.
Qed.

Lemma scan_candidates_shaped candidates pss image_data :
  Forall2 (fun c ps => parts_of c = Some ps) candidates pss ->
  forallb (forallb part_ok) pss = true ->
  truthy image_data = false ->
  exists v,
    scan_candidates candidates image_data = Return v /\
    match first_truthy_inline pss with
    | Some x => v = x
    | None => truthy v = false
    end.
Proof.
  intros Hparts. revert image_data.
  induction Hparts as [|c ps cs pss Hc _ IH]; intros d Hok Hd.
  - exists d. by split.
  - simpl in Hok. apply andb_true_iff in Hok as [Hps Hpss].
    cbn [scan_candidates].
    pose proof (parts_of_iter _ _ Hc) as Hiter.
    destruct (py_get c (u "content") (JObj [])) as [content|]; [|discriminate].
    simpl in Hiter |- *.
    destruct (py_get content (u "parts") (JArr [])) as [x|]; [|discriminate].
    simpl in Hiter |- *. rewrite Hiter. simpl.
    rewrite (scan_parts_shaped _ _ Hps). simpl.
    unfold first_truthy_inline. simpl.
    destruct (first_inline ps) as [v|] eqn:Hv; simpl.
    + destruct (truthy v) eqn:Htv; simpl.
      * exists v. by split.
      * apply IH; assumption.
    + rewrite Hd. apply IH; assumption.
Qed.

Lemma answer_parts_inv doc pss :
  answer_parts doc = Some pss ->
  exists candidates,
    candidates_of doc = Some candidates /\
    Forall2 (fun c ps => parts_of c = Some ps) candidates pss /\
    forallb (forallb part_ok) pss = true.
Proof.
  unfold answer_parts. intros H.
  destruct (candidates_of doc) as [cs|]; [|discriminate]. simpl in H.
  destruct (mapM parts_of cs) as [pss'|] eqn:Hm; [|discriminate]. simpl in H.
  destruct (forallb (forallb part_ok) pss') eqn:Hok; [|discriminate].
  injection H as <-. exists cs. split; [done|]. split; [|done].
  by apply mapM_Some.
Qed.

Lemma candidates_of_iter doc candidates :
  candidates_of doc = Some candidates ->
  (let? cs := py_get doc (u "candidates") (JArr []) in py_iter cs)%py
  = Return candidates.
Proof.
  unfold candidates_of, py_get. intros H.
  destruct doc as [| | | | |?|items]; try discriminate. simpl.
  destruct (dict_lookup (u "candidates") items) as [cs|]; simpl.
  - destruct cs; try discriminate. simpl. congruence.
  - congruence.
Qed.

Lemma find_image_data_shaped doc pss :
  answer_parts doc = Some pss ->
  exists v,
    find_image_data doc = Return v /\
    match first_truthy_inline pss with
    | Some x => v = x
    | None => truthy v = false
    end.
Proof.
  intros (cs & Hcs & Hparts & Hok)%answer_parts_inv.
  unfold find_image_data.
  pose proof (candidates_of_iter _ _ Hcs) as Hiter.
  destruct (py_get doc (u "candidates") (JArr [])) as [x|]; [|discriminate].
  simpl in Hiter |- *. rewrite Hiter. simpl.
  by apply scan_candidates_shaped.
Qed.

Lemma first_truthy_inline_truthy pss v :
  first_truthy_inline pss = Some v -> truthy v = true.
Proof.
  unfold first_truthy_inline. intros H.
  assert (Hin : In v (List.filter truthy (omap first_inline pss))).
  { destruct (List.filter truthy (omap first_inline pss)); [discriminate|].
    injection H as ->. by left. }
  by apply filter_In in Hin as [_ ?].
Qed.

(** ** The request *)

Section Handler.
Context {L : PyLib}.

Lemma http_error_msg_Some r :
  (400 <= status_code r < 600)%Z -> is_Some (http_error_msg r).
Proof.
  intros H. unfold http_error_msg.
  destruct (Z.leb_spec 400 (status_code r)); [|lia].
  destruct (Z.ltb_spec (status_code r) 500); [by eauto|].
  destruct (Z.leb_spec 500 (status_code r)); [|lia].
  destruct (Z.ltb_spec (status_code r) 600); [by eauto|lia].
Qed.

Lemma http_error_msg_None r :
  ~ (400 <= status_code r < 600)%Z <-> http_error_msg r = None.
Proof.
  split.
  - intros H. unfold http_error_msg.
    destruct (Z.leb_spec 400 (status_code r));
      destruct (Z.ltb_spec (status_code r) 500);
      destruct (Z.leb_spec 500 (status_code r));
      destruct (Z.ltb_spec (status_code r) 600); cbn; first [done | lia].
  - intros H Hr. apply http_error_msg_Some in Hr as [? Hr]. congruence.
Qed.

(** What the [try] block and its [except] clauses make of each way the
    request can end. *)
Lemma make_api_request_run api_key prompt w :
  make_api_request api_key prompt w =
  (match network w (length (sent w)) (the_request api_key prompt) with
   | Responded r =>
       match http_error_msg r with
       | Some msg =>
           Raise (ValueError
             (if (status_code r =? 401)%Z then
                u "Invalid API key. Please check your GOOGLE_API_KEY."
              else if (status_code r =? 403)%Z then
                u "API key doesn't have required permissions."
              else if (status_code r =? 429)%Z then
                u "Rate limit exceeded. Please wait and try again."
              else u "API request failed: " ++ msg))
       | None => Return r
       end
   | TimedOut _ =>
       Raise (ValueError (u "API request timed out. Please try again."))
   | TransportFailed msg =>
       Raise (ValueError (u "Network error: " ++ msg))
   end,
   log_request (the_request api_key prompt) w).
Proof.
  unfold make_api_request, try_except, bind, requests_post, the_request.
  destruct (network w _ _) as [r|m|m]; cbn; try reflexivity.
  unfold raise_for_status. destruct (http_error_msg r); cbn; [|reflexivity].
  repeat case_match; reflexivity.
Qed.

(** ** From the answer to the file *)

Lemma process_response_success prompt out verbose r w doc data raw img :
  body r = inl doc ->
  extract_image_data doc = Return data ->
  b64decode data = inl raw ->
  Image_open raw = inl img ->
  let path := target_path prompt out (clock w) in
  process_response prompt out verbose r w =
    (Return path,
     World (environ w) (clock w) (network w) (sent w)
           (stdout w ++ (if verbose then late_lines path img else []))
           (stderr w)
           ({[ u "public" ]} ∪ {[ u "public/images" ]} ∪ dirs w)
           (<[path := png_bytes img]> (files w))).
Proof.
  intros Hbody Hdata Hraw Himg path. subst path.
  unfold process_response, bind, response_json, lift, decode_image,
    target_path, derived_filename.
  rewrite Hbody. cbn. rewrite Hdata. cbn.
  destruct verbose; cbn; rewrite Hraw, Himg; cbn;
    destruct (str_truthy out); cbn;
    unfold write_stdout, late_lines; cbn;
    rewrite <- ?app_assoc, ?app_nil_r; reflexivity.
Qed.

Lemma process_response_Return prompt out verbose r w path w' :
  process_response prompt out verbose r w = (Return path, w') ->
  exists doc data raw img,
    body r = inl doc /\
    extract_image_data doc = Return data /\
    b64decode data = inl raw /\
    Image_open raw = inl img.
Proof.
  unfold process_response, bind, response_json, lift, decode_image.
  destruct (body r) as [doc|m] eqn:Hbody; cbn; [|discriminate].
  destruct (extract_image_data doc) as [data|e] eqn:Hdata; cbn; [|discriminate].
  destruct verbose; cbn;
    (destruct (b64decode data) as [raw|e] eqn:Hraw; cbn; [|discriminate]);
    (destruct (Image_open raw) as [img|e] eqn:Himg; cbn; [|discriminate]);
    intros _; by exists doc, data, raw, img.
Qed.

(** A failing run of the second half touches nothing but standard output. *)
Lemma process_response_Raise prompt out verbose r w e w' :
  process_response prompt out verbose r w = (Raise e, w') ->
  files w' = files w /\ dirs w' = dirs w /\
  stderr w' = stderr w /\ sent w' = sent w.
Proof.
  unfold process_response, bind, response_json, lift, decode_image.
  destruct (body r) as [doc|m]; cbn; [|by intros [= <- <-]].
  destruct (extract_image_data doc) as [data|e0]; cbn; [|by intros [= <- <-]].
  destruct verbose; cbn;
    (destruct (b64decode data) as [raw|e1]; cbn; [|by intros [= <- <-]]);
    (destruct (Image_open raw) as [img|e1]; cbn; [|by intros [= <- <-]]);
    destruct (str_truthy out); cbn; discriminate.
Qed.

Lemma process_response_sent prompt out verbose r w :
  sent (snd (process_response prompt out verbose r w)) = sent w.
Proof.
  destruct (process_response prompt out verbose r w) as [[path|e] w'] eqn:Hrun.
  - destruct (process_response_Return _ _ _ _ _ _ _ Hrun)
      as (doc & data & raw & img & Hbody & Hdata & Hraw & Himg).
    rewrite (process_response_success _ _ _ _ _ _ _ _ _ Hbody Hdata Hraw Himg)
      in Hrun.
    by injection Hrun as _ <-.
  - by apply process_response_Raise in Hrun as (_ & _ & _ & ?).
Qed.

(** ** The whole handler *)

Lemma generate_image_no_key prompt out verbose w :
  str_truthy (environ w !! GOOGLE_API_KEY) = false ->
  generate_image prompt out verbose w =
    (Raise (ValueError missing_key_message), w).
Proof.
  intros H. unfold generate_image, bind, environ_get. cbn. by rewrite H.
Qed.

Lemma generate_image_with_key prompt out verbose w api_key :
  environ w !! GOOGLE_API_KEY = Some api_key ->
  api_key <> [] ->
  generate_image prompt out verbose w =
    bind (make_api_request api_key prompt)
         (process_response prompt out verbose)
         (announced verbose prompt w).
Proof.
  intros Hkey Hne. unfold generate_image, environ_get.
  unfold bind at 1. rewrite Hkey.
  destruct api_key as [|c api_key]; [done|]. cbn [str_truthy negb default].
  unfold bind at 1.
  destruct verbose; cbn; unfold announced, write_stdout, early_lines; cbn;
    rewrite <- ?app_assoc, ?app_nil_r; reflexivity.
Qed.

Lemma announced_sent verbose prompt w :
  sent (announced verbose prompt w) = sent w.
Proof. reflexivity. Qed.

Lemma generate_image_sent prompt out verbose w api_key :
  environ w !! GOOGLE_API_KEY = Some api_key ->
  api_key <> [] ->
  sent (snd (generate_image prompt out verbose w)) =
    sent w ++ [the_request api_key prompt].
Proof.
  intros Hkey Hne. rewrite (generate_image_with_key _ _ _ _ _ Hkey Hne).
  unfold bind. rewrite make_api_request_run.
  destruct (network _ _ _) as [r|m|m]; cbn; try reflexivity.
  destruct (http_error_msg r); cbn; [reflexivity|].
  by rewrite process_response_sent.
Qed.

Lemma generate_image_success prompt out verbose w api_key r doc data raw img :
  environ w !! GOOGLE_API_KEY = Some api_key ->
  api_key <> [] ->
  network w (length (sent w)) (the_request api_key prompt) = Responded r ->
  http_error_msg r = None ->
  body r = inl doc ->
  extract_image_data doc = Return data ->
  b64decode data = inl raw ->
  Image_open raw = inl img ->
  let path := target_path prompt out (clock w) in
  generate_image prompt out verbose w =
    (Return path,
     World (environ w) (clock w) (network w)
           (sent w ++ [the_request api_key prompt])
           (stdout w ++ (if verbose then progress_lines prompt path img else []))
           (stderr w)
           ({[ u "public" ]} ∪ {[ u "public/images" ]} ∪ dirs w)
           (<[path := png_bytes img]> (files w))).
Proof.
  intros Hkey Hne Hnet Hstatus Hbody Hdata Hraw Himg path.
  rewrite (generate_image_with_key _ _ _ _ _ Hkey Hne).
  unfold bind. rewrite make_api_request_run.
  rewrite announced_sent. cbn [network announced]. rewrite Hnet, Hstatus.
  rewrite (process_response_success _ _ _ _ _ _ _ _ _ Hbody Hdata Hraw Himg).
  subst path. cbn. unfold progress_lines.
  destruct verbose; cbn; rewrite <- ?app_assoc, ?app_nil_r; reflexivity.
Qed.

Lemma generate_image_Return prompt out verbose w path w' :
  generate_image prompt out verbose w = (Return path, w') ->
  exists api_key r doc data raw img,
    environ w !! GOOGLE_API_KEY = Some api_key /\
    api_key <> [] /\
    network w (length (sent w)) (the_request api_key prompt) = Responded r /\
    http_error_msg r = None /\
    body r = inl doc /\
    extract_image_data doc = Return data /\
    b64decode data = inl raw /\
    Image_open raw = inl img.
Proof.
  intros Hrun.
  destruct (environ w !! GOOGLE_API_KEY) as [api_key|] eqn:Hkey;
    [|by rewrite generate_image_no_key in Hrun by (by rewrite Hkey)].
  destruct api_key as [|c api_key];
    [by rewrite generate_image_no_key in Hrun by (by rewrite Hkey)|].
  assert (Hne : c :: api_key <> []) by done.
  rewrite (generate_image_with_key _ _ _ _ _ Hkey Hne) in Hrun.
  unfold bind in Hrun. rewrite make_api_request_run in Hrun.
  rewrite announced_sent in Hrun. cbn [network announced] in Hrun.
  destruct (network w _ _) as [r|m|m] eqn:Hnet; try discriminate.
  destruct (http_error_msg r) eqn:Hstatus; [discriminate|].
  apply process_response_Return in Hrun
    as (doc & data & raw & img & Hbody & Hdata & Hraw & Himg).
  by exists (c :: api_key), r, doc, data, raw, img.
Qed.


End Handler.

(** ** The doubles of the generation configuration *)

(** [float_1_0] is the number one: its mantissa is [2^52] and its exponent
    [-52]. *)
Lemma float_1_0_exact : (4503599627370496 = 2 ^ 52)%Z.
Proof. reflexivity. Qed.

(** [float_0_95] is the double nearest to 95/100: a normal 53-bit mantissa
    [m] with [|m / 2^53 - 95/100|] at most half a unit in the last place. *)
Lemma float_0_95_nearest :
  (2 ^ 52 <= 8556839292003942 < 2 ^ 53)%Z /\
  (Z.abs (100 * 8556839292003942 - 95 * 2 ^ 53) * 2 <= 100)%Z.
Proof. split; [split|]; by vm_compute. Qed.

(** ** The claims about the handler *)

Section Claims.
Context {L : PyLib}.





(** ** The command line *)


Lemma main_Raise args w e w' :
  generate_image (prompt args) (output args) (negb (quiet args)) w =
    (Raise e, w') ->
  main args w =
    (write_stderr ([0x274c] ++
                   (if is_ValueError e then u " Error: "
                    else u " Unexpected error: ") ++ str_of_exn e) w',
     1%Z).
Proof. unfold main. intros ->. by destruct (is_ValueError e). Qed.



End Claims.

(** ** The generated file name *)

Section Names.
Context {L : PyLib}.

Lemma join_kept (s : pystr) :
  concat ((fun c => if kept c then [c] else []) <$> s) = List.filter kept s.
Proof.
  induction s as [|c s IH]; [done|]. cbn. rewrite IH. by destruct (kept c).
Qed.

Lemma ascii_isalnum_not_space c :
  ascii_isalnum c = true -> isspace c = false.
Proof.
  unfold ascii_isalnum, isspace. intros H.
  apply not_true_is_false. intros Hs.
  repeat rewrite ?orb_true_iff, ?andb_true_iff, ?N.leb_le, ?N.eqb_eq in H.
  repeat rewrite ?orb_true_iff, ?andb_true_iff, ?N.leb_le, ?N.eqb_eq in Hs.
  lia.
Qed.

Lemma isalnum_not_space c : isalnum c = true -> isspace c = false.
Proof.
  unfold isalnum. destruct (c <? 128).
  - apply ascii_isalnum_not_space.
  - apply isalnum_nonascii_not_space.
Qed.

(** Among the characters that are kept, the only white space is the
    space. *)
Lemma kept_space c : kept c = true -> isspace c = true -> c = SPACE.
Proof.
  unfold kept. rewrite !orb_true_iff, !N.eqb_eq.
  intros [[[Ha| ->]| ->]| ->] Hs; try done.
  by rewrite (isalnum_not_space _ Ha) in Hs.
Qed.

Lemma kept_cases c :
  kept c = true ->
  c = SPACE \/ isalnum c = true \/ c = HYPHEN \/ c = UNDERSCORE.
Proof.
  unfold kept. rewrite !orb_true_iff, !N.eqb_eq. tauto.
Qed.

(** C3, as the code has it.  The fragment is made from the first 30
    characters of the prompt: the characters that are alphanumeric, a
    space, a hyphen or an underscore are kept, the spaces at both ends of
    what is kept are dropped, and every space left becomes an underscore.
    So the fragment has at most 30 characters, all of them alphanumeric,
    hyphens or underscores, and the prompt ["Hello, World! @#$ 2024"]
    gives ["Hello_World__2024"]. *)
Theorem sanitized_fragment (prompt : pystr) :
  (exists leading core trailing,
     List.filter
       (fun c => isalnum c || (c =? SPACE) || (c =? HYPHEN) || (c =? UNDERSCORE))
       (take 30 prompt) = leading ++ core ++ trailing /\
     Forall (eq SPACE) leading /\
     Forall (eq SPACE) trailing /\
     head core <> Some SPACE /\
     last core <> Some SPACE /\
     safe_prompt prompt =
       (fun c => if c =? SPACE then UNDERSCORE else c) <$> core) /\
  Forall (fun c => isalnum c = true \/ c = HYPHEN \/ c = UNDERSCORE)
         (safe_prompt prompt) /\
  (length (safe_prompt prompt) <= 30)%nat /\
  safe_prompt (u "Hello, World! @#$ 2024") = u "Hello_World__2024".
Proof.
  fold kept.
  set (filtered := List.filter kept (take 30 prompt)).
  assert (Hsafe : safe_prompt prompt = replace_space_underscore (strip filtered)).
  { unfold safe_prompt. by rewrite join_kept. }
  destruct (strip_split filtered) as (l & r & Hsplit & Hl & Hr & Hhd & Hlast).
  assert (Hkept : Forall (fun c => kept c = true) filtered).
  { apply Forall_forall. intros c Hc%list_elem_of_In.
    by apply filter_In in Hc as [_ ?]. }
  rewrite Hsplit in Hkept.
  apply Forall_app in Hkept as [Hkl Hkept].
  apply Forall_app in Hkept as [Hkc Hkr].
  assert (Hspaces : forall s,
             Forall (fun c => kept c = true) s ->
             Forall (fun c => isspace c = true) s -> Forall (eq SPACE) s).
  { intros s Hk Hs. induction Hk as [|c s Hc Hk IH]; [constructor|].
    apply Forall_cons in Hs as [Hsc Hs].
    constructor; [symmetry; by apply kept_space|by apply IH]. }
  split; [|split; [|split]].
  - exists l, (strip filtered), r. repeat split; try done; auto.
    + intros Hc. by specialize (Hhd _ Hc).
    + intros Hc. by specialize (Hlast _ Hc).
  - rewrite Hsafe. unfold replace_space_underscore.
    apply Forall_fmap. eapply Forall_impl; [exact Hkc|].
    intros c Hc. cbn. destruct (N.eqb_spec c SPACE) as [->|Hne]; [auto|].
    destruct (kept_cases _ Hc) as [?|?]; [done|auto].
  - rewrite Hsafe. unfold replace_space_underscore. rewrite length_fmap.
    assert (Hlen : (length filtered <= 30)%nat).
    { subst filtered. etrans; [apply List.filter_length_le|].
      rewrite length_take. lia. }
    rewrite Hsplit, !length_app in Hlen. lia.
  - reflexivity.
Qed.

End Names.

(** ** The timestamp *)












(** ** Two invocations *)

Section Invocations.
Context {L : PyLib}.

(** What a successful invocation returns and what it leaves on disk. *)
Lemma generate_image_Return_path prompt out verbose w path w' :
  generate_image prompt out verbose w = (Return path, w') ->
  path = target_path prompt out (clock w) /\
  exists api_key r doc data raw img,
    network w (length (sent w)) (the_request api_key prompt) = Responded r /\
    body r = inl doc /\
    extract_image_data doc = Return data /\
    b64decode data = inl raw /\
    Image_open raw = inl img /\
    files w' = <[path := png_bytes img]> (files w).
Proof.
  intros Hrun.
  destruct (generate_image_Return _ _ _ _ _ _ Hrun)
    as (api_key & r & doc & data & raw & img & Hkey & Hne & Hnet &
        Hstatus & Hbody & Hdata & Hraw & Himg).
  rewrite (generate_image_success _ _ _ _ _ _ _ _ _ _
             Hkey Hne Hnet Hstatus Hbody Hdata Hraw Himg) in Hrun.
  injection Hrun as <- <-. split; [done|].
  by exists api_key, r, doc, data, raw, img.
Qed.


End Invocations.

(** ** Extraction *)

Section Extraction.
Context {L : PyLib}.

Lemma extract_image_data_shaped doc pss :
  answer_parts doc = Some pss ->
  extract_image_data doc =
    match first_truthy_inline pss with
    | Some data => Return data
    | None =>
        Raise (ValueError (u "No image data received from API. Response: " ++
                           str_of_json doc))
    end.
Proof.
  intros Hshape. unfold extract_image_data.
  destruct (find_image_data_shaped _ _ Hshape) as (v & -> & Hv). cbn.
  destruct (first_truthy_inline pss) as [x|] eqn:Hx.
  - subst v. by rewrite (first_truthy_inline_truthy _ _ Hx).
  - by rewrite Hv.
Qed.

Lemma first_inline_In parts data :
  first_inline parts = Some data ->
  exists part, In part parts /\ inline_data part = Some data.
Proof.
  unfold first_inline. induction parts as [|part parts IH]; [done|].
  cbn. destruct (inline_data part) as [d|] eqn:Hd; cbn.
  - intros [= ->]. exists part. auto.
  - intros (p & Hp & Hdata)%IH. exists p. auto.
Qed.

(** When every first inline-data value is falsy, none is selected. *)
Lemma first_truthy_inline_None pss :
  (forall parts data,
     In parts pss -> first_inline parts = Some data -> truthy data = false) ->
  first_truthy_inline pss = None.
Proof.
  unfold first_truthy_inline. induction pss as [|parts pss IH]; [done|].
  intros Hall. cbn. destruct (first_inline parts) as [d|] eqn:Hd; cbn.
  - rewrite (Hall parts d) by (cbn; auto).
    apply IH. intros ps x Hin. apply Hall. by right.
  - apply IH. intros ps x Hin. apply Hall. by right.
Qed.


(** C1, as the code has it.  For an answer of the documented shape the
    payload is the data of the first inline-data field of the first
    candidate for which that data is truthy (for a string: not empty).
    When there is no such candidate the handler raises the "no image data"
    error, whose message ends with the text of the parsed answer; this is
    so in particular when no part of any candidate has an inline-data
    field. *)
Theorem extraction_takes_first_truthy_inline_data
    (doc : json) (pss : list (list json)) :
  answer_parts doc = Some pss ->
  extract_image_data doc =
    match head (List.filter truthy (omap first_inline pss)) with
    | Some data => Return data
    | None =>
        Raise (ValueError (u "No image data received from API. Response: " ++
                           str_of_json doc))
    end /\
  ((forall parts part,
      In parts pss -> In part parts -> inline_data part = None) ->
   exists msg,
     extract_image_data doc = Raise (ValueError msg) /\
     contains msg (u "No image data") /\
     contains msg (str_of_json doc)).
Proof.
  intros Hshape. split; [exact (extract_image_data_shaped _ _ Hshape)|].
  intros Hnone.
  exists (u "No image data received from API. Response: " ++ str_of_json doc).
  rewrite (extract_image_data_shaped _ _ Hshape).
  rewrite first_truthy_inline_None.
  - split; [done|]. split; [|apply contains_app_r].
    exists [], (u " received from API. Response: " ++ str_of_json doc).
    reflexivity.
  - intros parts data Hin (part & Hpart & Hdata)%first_inline_In.
    by rewrite (Hnone parts part) in Hdata.
Qed.


End Extraction.

(** ** The claims on concrete runs *)

Module Runs.
Import Demo.






(** C3 as stated fails: the fragment of ["Hello, World! @#$ 2024"] is not
    ["Hello World 2024"]; the two spaces around the removed [@#$] both
    stay and every space is an underscore. *)
Lemma hello_world_fragment :
  safe_prompt (L := lib) (u "Hello, World! @#$ 2024") = u "Hello_World__2024" /\
  safe_prompt (L := lib) (u "Hello, World! @#$ 2024") <> u "Hello World 2024".
Proof. split; [by vm_compute|]. vm_compute. discriminate. Qed.



(** C1 on an answer without any inline data. *)
Lemma no_inline_data_run :
  let part := JObj [ (u "text", JStr (u "sorry")) ] in
  let doc := answer [ JObj [ (u "content", JObj [ (u "parts", JArr [part]) ]) ];
                      JObj [] ] in
  answer_parts doc = Some [[part]; []] /\
  exists msg,
    extract_image_data (L := lib) doc = Raise (ValueError msg) /\
    contains msg (u "No image data") /\
    contains msg (str_of_json (PyLib := lib) doc).
Proof.
  intros part doc.
  assert (Hshape : answer_parts doc = Some [[part]; []])
    by (vm_compute; reflexivity).
  split; [exact Hshape|].
  apply (extraction_takes_first_truthy_inline_data (L := lib) doc _ Hshape).
  intros parts p [<-|[<-|[]]] Hp; [|destruct Hp].
  destruct Hp as [<-|[]]. reflexivity.
Defined.

(** C1 as stated fails.  The first candidate of this answer has an
    inline-data field, whose string is empty; the payload is not that
    string but the one of the second candidate.  And an answer that is a
    JSON array holds no inline data, yet what is raised is an attribute
    error, not the "no image data" error. *)
Lemma first_candidate_with_inline_data_is_passed_over :
  let doc := answer [candidate (JStr []); candidate (JStr PNG_3x2)] in
  first_inline <$> parts_of (candidate (JStr [])) = Some (Some (JStr [])) /\
  extract_image_data (L := lib) doc = Return (JStr PNG_3x2) /\
  extract_image_data (L := lib) (JArr []) =
    Raise (AttributeError (JArr []) (u "get")).
Proof. repeat split; by vm_compute. Qed.


End Runs.

(** * Further properties of the handler *)

(** ** The paths through [generate_image] *)

Section Paths_through.
Context {L : PyLib}.

(** After a response that is not an HTTP error the handler goes on with
    the second half, in the world where the request is logged. *)
Lemma generate_image_responded prompt out verbose w api_key r :
  environ w !! GOOGLE_API_KEY = Some api_key ->
  api_key <> [] ->
  network w (length (sent w)) (the_request api_key prompt) = Responded r ->
  http_error_msg r = None ->
  generate_image prompt out verbose w =
    process_response prompt out verbose r
      (log_request (the_request api_key prompt) (announced verbose prompt w)).
Proof.
  intros Hkey Hne Hnet Hstatus.
  rewrite (generate_image_with_key _ _ _ _ _ Hkey Hne).
  unfold bind. rewrite make_api_request_run.
  rewrite announced_sent. cbn [network announced]. by rewrite Hnet, Hstatus.
Qed.

(** When the request itself fails, the handler stops there. *)
Lemma generate_image_request_failed prompt out verbose w api_key :
  environ w !! GOOGLE_API_KEY = Some api_key ->
  api_key <> [] ->
  (forall r, network w (length (sent w)) (the_request api_key prompt) =
               Responded r -> http_error_msg r <> None) ->
  exists e,
    generate_image prompt out verbose w =
      (Raise e,
       log_request (the_request api_key prompt) (announced verbose prompt w)).
Proof.
  intros Hkey Hne Hfail.
  rewrite (generate_image_with_key _ _ _ _ _ Hkey Hne).
  unfold bind. rewrite make_api_request_run.
  rewrite announced_sent. cbn [network announced].
  destruct (network w _ _) as [r|m|m] eqn:Hnet; eauto.
  destruct (http_error_msg r) eqn:Hstatus; eauto.
  by destruct (Hfail r eq_refl).
Qed.

Lemma process_response_bad_json prompt out verbose r w text :
  body r = inr text ->
  process_response prompt out verbose r w = (Raise (JSONDecodeError text), w).
Proof.
  intros Hbody. unfold process_response, bind, response_json.
  by rewrite Hbody.
Qed.

Lemma process_response_no_payload prompt out verbose r w doc e :
  body r = inl doc ->
  extract_image_data doc = Raise e ->
  process_response prompt out verbose r w = (Raise e, w).
Proof.
  intros Hbody Hdata. unfold process_response, bind, response_json, lift.
  rewrite Hbody. cbn. by rewrite Hdata.
Qed.

Lemma process_response_decode_error prompt out verbose r w doc data text :
  body r = inl doc ->
  extract_image_data doc = Return data ->
  (b64decode data = inr text \/
   exists raw, b64decode data = inl raw /\ Image_open raw = inr text) ->
  process_response prompt out verbose r w =
    (Raise (ValueError (u "Failed to decode image data: " ++ text)),
     World (environ w) (clock w) (network w) (sent w)
           (stdout w ++
            (if verbose then [ [0x2705] ++ u " Image received from API";
                               [0x1f4be] ++ u " Saving image..." ]
             else []))
           (stderr w) (dirs w) (files w)).
Proof.
  intros Hbody Hdata Hfail.
  unfold process_response, bind, response_json, lift, decode_image.
  rewrite Hbody. cbn. rewrite Hdata. cbn.
  destruct Hfail as [Hraw|(raw & Hraw & Himg)];
    destruct verbose; cbn; rewrite Hraw; cbn; rewrite ?Himg; cbn;
    unfold write_stdout; cbn; rewrite <- ?app_assoc, ?app_nil_r;
    try reflexivity; by destruct w.
Qed.

(** Every way the second half can end. *)
Lemma process_response_cases (r : response) :
  (exists text, body r = inr text) \/
  (exists doc e, body r = inl doc /\ extract_image_data doc = Raise e) \/
  (exists doc data text,
     body r = inl doc /\ extract_image_data doc = Return data /\
     (b64decode data = inr text \/
      exists raw, b64decode data = inl raw /\ Image_open raw = inr text)) \/
  (exists doc data raw img,
     body r = inl doc /\ extract_image_data doc = Return data /\
     b64decode data = inl raw /\ Image_open raw = inl img).
Proof.
  destruct (body r) as [doc|text]; [|by left; eauto].
  destruct (extract_image_data doc) as [data|e] eqn:Hdata;
    [|by right; left; eauto].
  destruct (b64decode data) as [raw|text] eqn:Hraw;
    [|by right; right; left; eauto 10].
  destruct (Image_open raw) as [img|text] eqn:Himg.
  - right; right; right. by exists doc, data, raw, img.
  - right; right; left. exists doc, data, text. eauto 10.
Qed.

(** The handler reads the environment, the clock and the network; it
    changes none of them, and it never writes to standard error. *)
Lemma process_response_frame prompt out verbose r w :
  let w' := snd (process_response prompt out verbose r w) in
  environ w' = environ w /\ clock w' = clock w /\
  network w' = network w /\ stderr w' = stderr w.
Proof.
  destruct (process_response_cases r)
    as [(text & Hbody)|[(doc & e & Hbody & Hdata)|
        [(doc & data & text & Hbody & Hdata & Hfail)|
         (doc & data & raw & img & Hbody & Hdata & Hraw & Himg)]]].
  - by rewrite (process_response_bad_json _ _ _ _ _ _ Hbody).
  - by rewrite (process_response_no_payload _ _ _ _ _ _ _ Hbody Hdata).
  - by rewrite (process_response_decode_error _ _ _ _ _ _ _ _ Hbody Hdata Hfail).
  - by rewrite (process_response_success _ _ _ _ _ _ _ _ _ Hbody Hdata Hraw Himg).
Qed.

Lemma generate_image_frame prompt out verbose w :
  let w' := snd (generate_image prompt out verbose w) in
  environ w' = environ w /\ clock w' = clock w /\
  network w' = network w /\ stderr w' = stderr w.
Proof.
  destruct (str_truthy (environ w !! GOOGLE_API_KEY)) eqn:Ht;
    [|by rewrite generate_image_no_key].
  destruct (environ w !! GOOGLE_API_KEY) as [[|c api_key]|] eqn:Hkey;
    try discriminate.
  assert (Hne : c :: api_key <> []) by done.
  rewrite (generate_image_with_key _ _ _ _ _ Hkey Hne).
  unfold bind. rewrite make_api_request_run.
  destruct (network _ _ _) as [r|m|m]; try done.
  destruct (http_error_msg r); [done|].
  apply (process_response_frame prompt out verbose r
           (log_request (the_request (c :: api_key) prompt)
              (announced verbose prompt w))).
Qed.

End Paths_through.

(** ** Failures after the request *)

Section Failures.
Context {L : PyLib}.

(** X1. A payload that cannot be base64-decoded, or whose bytes Pillow
    cannot open, is a decode error: the handler raises a [ValueError] whose
    message is "Failed to decode image data: " and the text of the library
    error.  One request was issued, a verbose run has printed the two
    lines before the request and the two after it, and no file or
    directory was written. *)
Theorem undecodable_payload_is_a_decode_error
    (prompt : pystr) (output_filename : option pystr) (verbose : bool)
    (w : world) (api_key : pystr) (r : response) (doc data : json)
    (text : pystr) :
  environ w !! GOOGLE_API_KEY = Some api_key ->
  api_key <> [] ->
  network w (length (sent w)) (the_request api_key prompt) = Responded r ->
  ~ (400 <= status_code r < 600)%Z ->
  body r = inl doc ->
  extract_image_data doc = Return data ->
  (b64decode data = inr text \/
   exists raw, b64decode data = inl raw /\ Image_open raw = inr text) ->
  generate_image prompt output_filename verbose w =
    (Raise (ValueError (u "Failed to decode image data: " ++ text)),
     World (environ w) (clock w) (network w)
           (sent w ++ [the_request api_key prompt])
           (stdout w ++
            (if verbose then
               [ [0x1f4dd] ++ u " Prompt: " ++ prompt;
                 [0x1f3a8] ++ u " Generating image with Nano Banana...";
                 [0x2705] ++ u " Image received from API";
                 [0x1f4be] ++ u " Saving image..." ]
             else []))
           (stderr w) (dirs w) (files w)).
Proof.
  intros Hkey Hne Hnet Hstatus%http_error_msg_None Hbody Hdata Hfail.
  rewrite (generate_image_responded _ _ _ _ _ _ Hkey Hne Hnet Hstatus).
  rewrite (process_response_decode_error _ _ _ _ _ _ _ _ Hbody Hdata Hfail).
  unfold log_request, announced, early_lines. cbn.
  destruct verbose; cbn; rewrite <- ?app_assoc, ?app_nil_r; reflexivity.
Qed.

(** X2. A credential variable that is set to the empty string counts as
    not set: the command prints the configuration error on standard error
    and exits with status 1, and nothing else has happened -- no request,
    no output on standard output, no file. *)
Theorem empty_credential_is_a_missing_credential
    (args : Namespace) (w : world) :
  environ w !! GOOGLE_API_KEY = Some [] ->
  main args w =
    (World (environ w) (clock w) (network w) (sent w) (stdout w)
           (stderr w ++ [ [0x274c] ++ u " Error: " ++ missing_key_message ])
           (dirs w) (files w),
     1%Z).
Proof.
  intros Hkey.
  rewrite (main_Raise args w (ValueError missing_key_message) w).
  - reflexivity.
  - apply generate_image_no_key. by rewrite Hkey.
Qed.

(** X3. An answer whose body is not JSON makes [response.json()] raise;
    the error is a [ValueError], so the command reports it with the
    "Error: " prefix and exits with status 1.  The request was issued and
    no file or directory was written. *)
Theorem unparsable_body_is_reported_as_error
    (args : Namespace) (w : world) (api_key : pystr) (r : response)
    (text : pystr) :
  environ w !! GOOGLE_API_KEY = Some api_key ->
  api_key <> [] ->
  network w (length (sent w)) (the_request api_key (prompt args)) =
    Responded r ->
  ~ (400 <= status_code r < 600)%Z ->
  body r = inr text ->
  fst (generate_image (prompt args) (output args) (negb (quiet args)) w) =
    Raise (JSONDecodeError text) /\
  snd (main args w) = 1%Z /\
  stderr (fst (main args w)) =
    stderr w ++ [ [0x274c] ++ u " Error: " ++ text ] /\
  sent (fst (main args w)) = sent w ++ [the_request api_key (prompt args)] /\
  files (fst (main args w)) = files w /\
  dirs (fst (main args w)) = dirs w.
Proof.
  intros Hkey Hne Hnet Hstatus%http_error_msg_None Hbody.
  pose proof (generate_image_responded (prompt args) (output args)
                (negb (quiet args)) w api_key r Hkey Hne Hnet Hstatus) as Hrun.
  rewrite (process_response_bad_json _ _ _ _ _ _ Hbody) in Hrun.
  rewrite (main_Raise _ _ _ _ Hrun), Hrun. by cbn.
Qed.

(** X4. An answer that is JSON but not an object (a list, a string, a
    number, [null]) has no [get]: the handler raises an [AttributeError],
    which is not a [ValueError], so the command reports it with the
    "Unexpected error: " prefix and exits with status 1.  No file or
    directory was written. *)
Theorem non_object_answer_is_an_unexpected_error
    (args : Namespace) (w : world) (api_key : pystr) (r : response)
    (doc : json) :
  environ w !! GOOGLE_API_KEY = Some api_key ->
  api_key <> [] ->
  network w (length (sent w)) (the_request api_key (prompt args)) =
    Responded r ->
  ~ (400 <= status_code r < 600)%Z ->
  body r = inl doc ->
  (forall items, doc <> JObj items) ->
  fst (generate_image (prompt args) (output args) (negb (quiet args)) w) =
    Raise (AttributeError doc (u "get")) /\
  snd (main args w) = 1%Z /\
  stderr (fst (main args w)) =
    stderr w ++
    [ [0x274c] ++ u " Unexpected error: " ++
      str_of_builtin (AttributeError doc (u "get")) ] /\
  files (fst (main args w)) = files w /\
  dirs (fst (main args w)) = dirs w.
Proof.
  intros Hkey Hne Hnet Hstatus%http_error_msg_None Hbody Hdoc.
  assert (Hdata : extract_image_data doc = Raise (AttributeError doc (u "get"))).
  { destruct doc; try reflexivity. by destruct (Hdoc items). }
  pose proof (generate_image_responded (prompt args) (output args)
                (negb (quiet args)) w api_key r Hkey Hne Hnet Hstatus) as Hrun.
  rewrite (process_response_no_payload _ _ _ _ _ _ _ Hbody Hdata) in Hrun.
  rewrite (main_Raise _ _ _ _ Hrun), Hrun. by cbn.
Qed.

End Failures.

(** ** What a run leaves behind *)

Section Effects.
Context {L : PyLib}.

(** X5. The verbosity flag changes what is printed and nothing else: a
    verbose and a silent run from the same world end with the same result
    or the same error, the same requests issued, the same files and
    directories and the same standard error; and the silent run has
    printed nothing. *)
Theorem verbosity_changes_only_standard_output
    (prompt : pystr) (output_filename : option pystr) (w : world) :
  let loud := generate_image prompt output_filename true w in
  let silent := generate_image prompt output_filename false w in
  fst loud = fst silent /\
  sent (snd loud) = sent (snd silent) /\
  files (snd loud) = files (snd silent) /\
  dirs (snd loud) = dirs (snd silent) /\
  stderr (snd loud) = stderr (snd silent) /\
  stdout (snd silent) = stdout w.
Proof.
  intros loud silent. subst loud silent.
  destruct (str_truthy (environ w !! GOOGLE_API_KEY)) eqn:Ht;
    [|by rewrite !generate_image_no_key].
  destruct (environ w !! GOOGLE_API_KEY) as [[|c api_key]|] eqn:Hkey;
    try discriminate.
  assert (Hne : c :: api_key <> []) by done.
  destruct (network w (length (sent w)) (the_request (c :: api_key) prompt))
    as [r|m|m] eqn:Hnet.
  2,3: rewrite !(generate_image_with_key _ _ _ _ _ Hkey Hne);
       unfold bind; rewrite !make_api_request_run, !announced_sent;
       cbn [network announced]; rewrite Hnet; cbn;
       by rewrite app_nil_r.
  destruct (http_error_msg r) as [msg|] eqn:Hstatus.
  { rewrite !(generate_image_with_key _ _ _ _ _ Hkey Hne).
    unfold bind. rewrite !make_api_request_run, !announced_sent.
    cbn [network announced]. rewrite Hnet, Hstatus. cbn.
    by rewrite app_nil_r. }
  rewrite (generate_image_responded _ _ true _ _ _ Hkey Hne Hnet Hstatus).
  rewrite (generate_image_responded _ _ false _ _ _ Hkey Hne Hnet Hstatus).
  destruct (process_response_cases r)
    as [(text & Hbody)|[(doc & e & Hbody & Hdata)|
        [(doc & data & text & Hbody & Hdata & Hfail)|
         (doc & data & raw & img & Hbody & Hdata & Hraw & Himg)]]].
  - rewrite (process_response_bad_json _ _ true _ _ _ Hbody).
    rewrite (process_response_bad_json _ _ false _ _ _ Hbody).
    cbn. by rewrite app_nil_r.
  - rewrite (process_response_no_payload _ _ true _ _ _ _ Hbody Hdata).
    rewrite (process_response_no_payload _ _ false _ _ _ _ Hbody Hdata).
    cbn. by rewrite app_nil_r.
  - rewrite (process_response_decode_error _ _ true _ _ _ _ _ Hbody Hdata Hfail).
    rewrite (process_response_decode_error _ _ false _ _ _ _ _ Hbody Hdata Hfail).
    cbn. by rewrite !app_nil_r.
  - rewrite (process_response_success _ _ true _ _ _ _ _ _ Hbody Hdata Hraw Himg).
    rewrite (process_response_success _ _ false _ _ _ _ _ _ Hbody Hdata Hraw Himg).
    cbn. by rewrite !app_nil_r.
Qed.

(** X6. A failing command never announces a saved image.  What it has
    printed on standard output is nothing at all with [--quiet], and
    otherwise nothing, or the two lines that precede the request, or
    these and the two lines that precede decoding. *)
Theorem failing_run_prints_no_success_line
    (args : Namespace) (w : world) (e : exn) :
  fst (generate_image (prompt args) (output args) (negb (quiet args)) w) =
    Raise e ->
  exists lines,
    stdout (fst (main args w)) = stdout w ++ lines /\
    (quiet args = true -> lines = []) /\
    (lines = [] \/
     lines = [ [0x1f4dd] ++ u " Prompt: " ++ prompt args;
               [0x1f3a8] ++ u " Generating image with Nano Banana..." ] \/
     lines = [ [0x1f4dd] ++ u " Prompt: " ++ prompt args;
               [0x1f3a8] ++ u " Generating image with Nano Banana...";
               [0x2705] ++ u " Image received from API";
               [0x1f4be] ++ u " Saving image..." ]).
Proof.
  destruct (generate_image _ _ _ w) as [[path|e'] w'] eqn:Hrun;
    cbn; intros [= ->].
  rewrite (main_Raise _ _ _ _ Hrun). cbn.
  destruct (str_truthy (environ w !! GOOGLE_API_KEY)) eqn:Ht.
  2:{ rewrite generate_image_no_key in Hrun by done.
      injection Hrun as _ <-. exists []. rewrite app_nil_r. auto. }
  destruct (environ w !! GOOGLE_API_KEY) as [[|c api_key]|] eqn:Hkey;
    try discriminate.
  assert (Hne : c :: api_key <> []) by done.
  assert (Hearly : forall w0,
    w' = log_request (the_request (c :: api_key) (prompt args))
           (announced (negb (quiet args)) (prompt args) w0) ->
    stdout w0 = stdout w ->
    exists lines,
      stdout w' = stdout w ++ lines /\
      (quiet args = true -> lines = []) /\
      (lines = [] \/
       lines = [ [0x1f4dd] ++ u " Prompt: " ++ prompt args;
                 [0x1f3a8] ++ u " Generating image with Nano Banana..." ] \/
       lines = [ [0x1f4dd] ++ u " Prompt: " ++ prompt args;
                 [0x1f3a8] ++ u " Generating image with Nano Banana...";
                 [0x2705] ++ u " Image received from API";
                 [0x1f4be] ++ u " Saving image..." ])).
  { intros w0 -> Hw0. cbn. rewrite Hw0.
    destruct (quiet args); cbn.
    - exists []. auto.
    - exists (early_lines (prompt args)). unfold early_lines.
      repeat split; auto. discriminate. }
  destruct (network w (length (sent w))
              (the_request (c :: api_key) (prompt args))) as [r|m|m] eqn:Hnet.
  2,3: rewrite (generate_image_with_key _ _ _ _ _ Hkey Hne) in Hrun;
       unfold bind in Hrun; rewrite make_api_request_run in Hrun;
       rewrite announced_sent in Hrun; cbn [network announced] in Hrun;
       rewrite Hnet in Hrun; injection Hrun as _ <-;
       by apply (Hearly w).
  destruct (http_error_msg r) as [msg|] eqn:Hstatus.
  { rewrite (generate_image_with_key _ _ _ _ _ Hkey Hne) in Hrun.
    unfold bind in Hrun. rewrite make_api_request_run in Hrun.
    rewrite announced_sent in Hrun. cbn [network announced] in Hrun.
    rewrite Hnet, Hstatus in Hrun. injection Hrun as _ <-.
    by apply (Hearly w). }
  rewrite (generate_image_responded _ _ _ _ _ _ Hkey Hne Hnet Hstatus) in Hrun.
  destruct (process_response_cases r)
    as [(text & Hbody)|[(doc & e' & Hbody & Hdata)|
        [(doc & data & text & Hbody & Hdata & Hfail)|
         (doc & data & raw & img & Hbody & Hdata & Hraw & Himg)]]].
  - rewrite (process_response_bad_json _ _ _ _ _ _ Hbody) in Hrun.
    injection Hrun as _ <-. by apply (Hearly w).
  - rewrite (process_response_no_payload _ _ _ _ _ _ _ Hbody Hdata) in Hrun.
    injection Hrun as _ <-. by apply (Hearly w).
  - rewrite (process_response_decode_error _ _ _ _ _ _ _ _ Hbody Hdata Hfail)
      in Hrun.
    injection Hrun as _ <-. cbn.
    destruct (quiet args); cbn.
    + exists []. rewrite !app_nil_r. auto.
    + eexists. rewrite <- app_assoc. split; [reflexivity|].
      split; [discriminate|]. right; right. reflexivity.
  - by rewrite (process_response_success _ _ _ _ _ _ _ _ _
                  Hbody Hdata Hraw Himg) in Hrun.
Qed.

(** X7. A successful invocation writes exactly one file: every other
    path of the file system holds what it held before.  Both [public] and
    [public/images] exist afterwards; when they existed before, the set of
    directories is unchanged.  The environment, the clock and standard
    error are untouched. *)
Theorem success_writes_exactly_one_file
    (prompt : pystr) (output_filename : option pystr) (verbose : bool)
    (w : world) (output_path : pystr) (w' : world) :
  generate_image prompt output_filename verbose w = (Return output_path, w') ->
  is_Some (files w' !! output_path) /\
  (forall other, other <> output_path -> files w' !! other = files w !! other) /\
  dirs w' = {[ u "public" ]} ∪ {[ u "public/images" ]} ∪ dirs w /\
  (u "public" ∈ dirs w -> u "public/images" ∈ dirs w -> dirs w' = dirs w) /\
  environ w' = environ w /\ clock w' = clock w /\ stderr w' = stderr w.
Proof.
  intros Hrun.
  destruct (generate_image_Return _ _ _ _ _ _ Hrun)
    as (api_key & r & doc & data & raw & img & Hkey & Hne & Hnet &
        Hstatus & Hbody & Hdata & Hraw & Himg).
  rewrite (generate_image_success _ _ _ _ _ _ _ _ _ _
             Hkey Hne Hnet Hstatus Hbody Hdata Hraw Himg) in Hrun.
  injection Hrun as <- <-. cbn. repeat split.
  - rewrite lookup_insert_eq. eauto.
  - intros other Hother. by rewrite lookup_insert_ne.
  - intros H1 H2. set_solver.
Qed.

(** X8. Nothing is cached and nothing is remembered between invocations:
    with a credential in the environment, two invocations in a row issue
    two requests, one for each prompt, in that order -- whatever the first
    one ended with, and also for the same prompt twice. *)
Theorem two_invocations_issue_two_requests
    (prompt1 prompt2 : pystr) (out1 out2 : option pystr)
    (verbose1 verbose2 : bool) (w : world) (api_key : pystr) :
  environ w !! GOOGLE_API_KEY = Some api_key ->
  api_key <> [] ->
  sent (snd (generate_image prompt2 out2 verbose2
               (snd (generate_image prompt1 out1 verbose1 w)))) =
    sent w ++ [the_request api_key prompt1; the_request api_key prompt2].
Proof.
  intros Hkey Hne.
  destruct (generate_image_frame prompt1 out1 verbose1 w) as (Henv & _).
  rewrite (generate_image_sent prompt2 out2 verbose2 _ api_key);
    [|by rewrite Henv|done].
  rewrite (generate_image_sent _ _ _ _ _ Hkey Hne).
  by rewrite <- app_assoc.
Qed.

End Effects.

(** ** What the scan does not look at *)

Section Scan.
Context {L : PyLib}.

Lemma without_inline_data_lookup part :
  without_inline_data part = true ->
  exists items,
    part = JObj items /\ dict_lookup (u "inlineData") items = None.
Proof.
  unfold without_inline_data, part_ok, inline_data.
  destruct part as [| | | | |?|items]; try discriminate.
  intros H. exists items. split; [done|].
  destruct (dict_lookup (u "inlineData") items) as [inline|]; [|done].
  destruct inline as [| | | | |?|fields]; try discriminate.
  apply andb_true_iff in H as [[data Hdata]%bool_decide_eq_true H].
  by rewrite Hdata in H.
Qed.

Lemma scan_parts_prefix pre rest image_data :
  forallb without_inline_data pre = true ->
  scan_parts (pre ++ rest) image_data = scan_parts rest image_data.
Proof.
  induction pre as [|part pre IH]; [done|].
  cbn [forallb]. intros [Hp Hpre]%andb_true_iff.
  destruct (without_inline_data_lookup _ Hp) as (items & -> & Hnone).
  cbn. rewrite Hnone.
  rewrite bool_decide_eq_false_2 by (intros [? ?]; discriminate).
  cbn. by apply IH.
Qed.

Lemma scan_parts_hit part rest image_data data :
  part_ok part = true ->
  inline_data part = Some data ->
  scan_parts (part :: rest) image_data = Return data.
Proof.
  unfold part_ok, inline_data.
  destruct part as [| | | | |?|items]; try discriminate.
  destruct (dict_lookup (u "inlineData") items) as [inline|] eqn:Hin;
    [|discriminate].
  destruct inline as [| | | | |?|fields]; try discriminate.
  intros _ Hdata. cbn. rewrite Hin.
  rewrite bool_decide_eq_true_2 by eauto. cbn. by rewrite Hdata.
Qed.

Lemma scan_parts_missing_data items fields rest image_data :
  dict_lookup (u "inlineData") items = Some (JObj fields) ->
  dict_lookup (u "data") fields = None ->
  scan_parts (JObj items :: rest) image_data = Raise (KeyError (u "data")).
Proof.
  intros Hin Hdata. cbn. rewrite Hin.
  rewrite bool_decide_eq_true_2 by eauto. cbn. by rewrite Hdata.
Qed.

Lemma scan_candidates_passed_over skipped rest image_data :
  forallb passed_over skipped = true ->
  truthy image_data = false ->
  exists image_data',
    truthy image_data' = false /\
    scan_candidates (skipped ++ rest) image_data =
      scan_candidates rest image_data'.
Proof.
  revert image_data. induction skipped as [|c skipped IH]; intros d Hall Hd.
  - by exists d.
  - cbn [forallb] in Hall. apply andb_true_iff in Hall as [Hc Hall].
    unfold passed_over in Hc.
    destruct (parts_of c) as [ps|] eqn:Hps; [|discriminate].
    apply andb_true_iff in Hc as [Hok Hfirst].
    cbn [app scan_candidates].
    pose proof (parts_of_iter _ _ Hps) as Hiter.
    destruct (py_get c (u "content") (JObj [])) as [content|]; [|discriminate].
    cbn in Hiter |- *.
    destruct (py_get content (u "parts") (JArr [])) as [x|]; [|discriminate].
    cbn in Hiter |- *. rewrite Hiter. cbn.
    rewrite (scan_parts_shaped _ _ Hok). cbn.
    destruct (first_inline ps) as [v|]; cbn.
    + apply negb_true_iff in Hfirst. rewrite Hfirst. by apply IH.
    + rewrite Hd. by apply IH.
Qed.

(** The scan up to the part it stops at: the candidates before are passed
    over, the parts before have no inline data. *)
Lemma find_image_data_reaches doc skipped candidate later pre part rest :
  candidates_of doc = Some (skipped ++ candidate :: later) ->
  forallb passed_over skipped = true ->
  parts_of candidate = Some (pre ++ part :: rest) ->
  forallb without_inline_data pre = true ->
  exists image_data,
    find_image_data doc =
      obind (scan_parts (part :: rest) image_data)
            (fun image_data' =>
               if truthy image_data' then Return image_data'
               else scan_candidates later image_data').
Proof.
  intros Hcs Hskip Hps Hpre. unfold find_image_data.
  pose proof (candidates_of_iter _ _ Hcs) as Hiter.
  destruct (py_get doc (u "candidates") (JArr [])) as [x|]; [|discriminate].
  cbn in Hiter |- *. rewrite Hiter. cbn.
  destruct (scan_candidates_passed_over skipped (candidate :: later) JNull
              Hskip eq_refl) as (d & _ & ->).
  exists d. cbn [scan_candidates].
  pose proof (parts_of_iter _ _ Hps) as Hiter'.
  destruct (py_get candidate (u "content") (JObj [])) as [content|];
    [|discriminate].
  cbn in Hiter' |- *.
  destruct (py_get content (u "parts") (JArr [])) as [y|]; [|discriminate].
  cbn in Hiter' |- *. rewrite Hiter'. cbn.
  by rewrite (scan_parts_prefix _ _ _ Hpre).
Qed.

(** X9. The scan stops at the first inline-data field with a truthy value
    and looks at nothing after it: the parts that follow it in the same
    candidate and the candidates that follow are never inspected, so they
    may be anything -- further images, or values that are not even of the
    documented shape -- without changing the payload or raising. *)
Theorem nothing_after_the_payload_is_inspected
    (doc : json) (skipped : list json) (candidate : json)
    (later : list json) (pre : list json) (part : json) (rest : list json)
    (data : json) :
  candidates_of doc = Some (skipped ++ candidate :: later) ->
  forallb passed_over skipped = true ->
  parts_of candidate = Some (pre ++ part :: rest) ->
  forallb without_inline_data pre = true ->
  part_ok part = true ->
  inline_data part = Some data ->
  truthy data = true ->
  extract_image_data doc = Return data.
Proof.
  intros Hcs Hskip Hps Hpre Hok Hdata Ht.
  destruct (find_image_data_reaches _ _ _ _ _ _ _ Hcs Hskip Hps Hpre)
    as (d & Hfind).
  unfold extract_image_data. rewrite Hfind.
  rewrite (scan_parts_hit _ _ _ _ Hok Hdata). cbn. rewrite Ht. cbn.
  by rewrite Ht.
Qed.

(** X10. An inline-data field that is an object without a [data] key makes
    the scan fail with [KeyError: 'data'] as soon as it is reached, even
    when a later part or a later candidate carries a proper image. *)
Theorem inline_data_without_data_is_a_key_error
    (doc : json) (skipped : list json) (candidate : json)
    (later : list json) (pre : list json)
    (items fields : list (pystr * json)) (rest : list json) :
  candidates_of doc = Some (skipped ++ candidate :: later) ->
  forallb passed_over skipped = true ->
  parts_of candidate = Some (pre ++ JObj items :: rest) ->
  forallb without_inline_data pre = true ->
  dict_lookup (u "inlineData") items = Some (JObj fields) ->
  dict_lookup (u "data") fields = None ->
  extract_image_data doc = Raise (KeyError (u "data")).
Proof.
  intros Hcs Hskip Hps Hpre Hin Hdata.
  destruct (find_image_data_reaches _ _ _ _ _ _ _ Hcs Hskip Hps Hpre)
    as (d & Hfind).
  unfold extract_image_data. rewrite Hfind.
  by rewrite (scan_parts_missing_data _ _ _ _ Hin Hdata).
Qed.

End Scan.

(** ** More on the file name *)

Section Fragment.
Context {L : PyLib}.

Lemma safe_prompt_unfold prompt :
  safe_prompt prompt =
    replace_space_underscore (strip (List.filter kept (take 30 prompt))).
Proof. unfold safe_prompt. by rewrite join_kept. Qed.



Lemma lstrip_id s :
  Forall (fun c => isspace c = false) s -> lstrip s = s.
Proof. destruct 1 as [|c s Hc _]; [done|]. cbn. by rewrite Hc. Qed.

Lemma strip_id s :
  Forall (fun c => isspace c = false) s -> strip s = s.
Proof.
  intros Hs. unfold strip, rstrip. rewrite (lstrip_id _ Hs).
  rewrite lstrip_id by (by apply Forall_rev). apply rev_involutive.
Qed.

(** A character that may appear in a fragment is kept by the filter and is
    no white space. *)
Lemma safe_char_kept c :
  isalnum c = true \/ c = HYPHEN \/ c = UNDERSCORE ->
  kept c = true /\ isspace c = false.
Proof.
  unfold kept. intros [Ha|[->| ->]].
  - rewrite Ha. split; [done|]. by apply isalnum_not_space.
  - split; [|done]. by rewrite !orb_true_iff, !N.eqb_eq; auto.
  - split; [|done]. by rewrite !orb_true_iff, !N.eqb_eq; auto.
Qed.

Lemma safe_prompt_chars prompt :
  Forall (fun c => isalnum c = true \/ c = HYPHEN \/ c = UNDERSCORE)
         (safe_prompt prompt).
Proof.
  rewrite safe_prompt_unfold.
  destruct (strip_split (List.filter kept (take 30 prompt)))
    as (l & r & Hsplit & _).
  assert (Hkept : Forall (fun c => kept c = true)
                         (List.filter kept (take 30 prompt))).
  { apply Forall_forall. intros c Hc%list_elem_of_In.
    by apply filter_In in Hc as [_ ?]. }
  rewrite Hsplit in Hkept.
  apply Forall_app in Hkept as [_ Hkept].
  apply Forall_app in Hkept as [Hkept _].
  unfold replace_space_underscore. apply Forall_fmap.
  eapply Forall_impl; [exact Hkept|].
  intros c Hc. cbn. destruct (N.eqb_spec c SPACE) as [->|Hne]; [auto|].
  destruct (kept_cases _ Hc) as [?|?]; [done|auto].
Qed.

Lemma safe_prompt_length prompt : (length (safe_prompt prompt) <= 30)%nat.
Proof.
  rewrite safe_prompt_unfold. unfold replace_space_underscore.
  rewrite length_fmap.
  destruct (strip_split (List.filter kept (take 30 prompt)))
    as (l & r & Hsplit & _).
  assert (Hlen : (length (List.filter kept (take 30 prompt)) <= 30)%nat).
  { etrans; [apply List.filter_length_le|]. rewrite length_take. lia. }
  rewrite Hsplit, !length_app in Hlen. lia.
Qed.

Lemma filter_all {A} (f : A -> bool) (l : list A) :
  Forall (fun x => f x = true) l -> List.filter f l = l.
Proof. induction 1 as [|x l Hx _ IH]; [done|]. cbn. by rewrite Hx, IH. Qed.

Lemma safe_prompt_fixed (s : pystr) :
  (length s <= 30)%nat ->
  Forall (fun c => isalnum c = true \/ c = HYPHEN \/ c = UNDERSCORE) s ->
  safe_prompt s = s.
Proof.
  intros Hlen Hsafe. rewrite safe_prompt_unfold.
  rewrite firstn_all2 by done.
  rewrite filter_all
    by (eapply Forall_impl; [exact Hsafe|]; by intros c [? _]%safe_char_kept).
  rewrite strip_id
    by (eapply Forall_impl; [exact Hsafe|]; by intros c [_ ?]%safe_char_kept).
  unfold replace_space_underscore.
  induction Hsafe as [|c s' Hc _ IH]; [done|]. cbn.
  cbn in Hlen. rewrite IH by lia. f_equal.
  destruct (N.eqb_spec c SPACE) as [->|]; [|done].
  by apply safe_char_kept in Hc as [_ ?].
Qed.

(** X11. A prompt that is already a fragment is left as it is: when the
    prompt has at most 30 characters, all of them alphanumeric, hyphens or
    underscores, the fragment is the prompt itself. *)
Theorem safe_prompt_keeps_a_safe_name (prompt : pystr) :
  (length prompt <= 30)%nat ->
  Forall (fun c => isalnum c = true \/ c = HYPHEN \/ c = UNDERSCORE) prompt ->
  safe_prompt prompt = prompt.
Proof. apply safe_prompt_fixed. Qed.

(** X12. Sanitising is idempotent: the fragment of a fragment is that
    fragment. *)
Theorem safe_prompt_idempotent (prompt : pystr) :
  safe_prompt (safe_prompt prompt) = safe_prompt prompt.
Proof.
  apply safe_prompt_fixed; [apply safe_prompt_length|apply safe_prompt_chars].
Qed.


End Fragment.

(** ** The characters of a generated name *)

Lemma pads_with_digits_spec width bound n :
  pads_with_digits width bound = true ->
  n < bound ->
  forallb is_digit (zero_pad width n) = true.
Proof.
  unfold pads_with_digits. rewrite forallb_forall. intros Hall Hn.
  apply Hall, in_map_iff. exists (N.to_nat n).
  split; [apply N2Nat.id|]. apply in_seq. lia.
Qed.

Lemma pads_with_digits_2 : pads_with_digits 2 100 = true.
Proof. by vm_compute. Qed.

Lemma pads_with_digits_4 : pads_with_digits 4 10000 = true.
Proof. by vm_compute. Qed.

Section Generated_name.
Context {L : PyLib}.

Lemma is_digit_isalnum c : is_digit c = true -> isalnum c = true.
Proof.
  unfold is_digit, isalnum, ascii_isalnum.
  intros [H1 H2]%andb_true_iff. apply N.leb_le in H1, H2.
  assert (Hlt : (c <? 128) = true) by (apply N.ltb_lt; lia).
  rewrite Hlt. apply N.leb_le in H1, H2. by rewrite H1, H2.
Qed.

Lemma digits_are_safe s :
  forallb is_digit s = true ->
  Forall (fun c => isalnum c = true \/ c = HYPHEN \/ c = UNDERSCORE) s.
Proof.
  induction s as [|c s IH]; [constructor|].
  cbn. intros [Hc Hs]%andb_true_iff.
  constructor; [left; by apply is_digit_isalnum|by apply IH].
Qed.

Lemma strftime_chars t :
  valid_datetime t ->
  Forall (fun c => isalnum c = true \/ c = HYPHEN \/ c = UNDERSCORE)
         (strftime_Ymd_HMS t).
Proof.
  intros (Hy & Hm & Hd & HH & HM & HS & _). unfold strftime_Ymd_HMS.
  assert (H4 : forall n, n < 10000 ->
             Forall (fun c => isalnum c = true \/ c = HYPHEN \/ c = UNDERSCORE)
                    (zero_pad 4 n)).
  { intros n Hn. apply digits_are_safe, (pads_with_digits_spec 4 10000);
      [exact pads_with_digits_4|done]. }
  assert (H2 : forall n, n < 100 ->
             Forall (fun c => isalnum c = true \/ c = HYPHEN \/ c = UNDERSCORE)
                    (zero_pad 2 n)).
  { intros n Hn. apply digits_are_safe, (pads_with_digits_spec 2 100);
      [exact pads_with_digits_2|done]. }
  apply Forall_app_2; [apply H4; lia|].
  apply Forall_app_2; [apply H2; lia|].
  apply Forall_app_2; [apply H2; lia|].
  apply Forall_app_2; [constructor; [by right; right|constructor]|].
  apply Forall_app_2; [apply H2; lia|].
  apply Forall_app_2; apply H2; lia.
Qed.

Lemma derived_filename_chars prompt t :
  valid_datetime t ->
  Forall (fun c => isalnum c = true \/ c = HYPHEN \/ c = UNDERSCORE)
         (derived_filename prompt t).
Proof.
  intros Ht. unfold derived_filename.
  apply Forall_app_2.
  { assert (Hlit : u "generated_" =
                   [103; 101; 110; 101; 114; 97; 116; 101; 100; 95])
      by (vm_compute; reflexivity).
    rewrite Hlit.
    repeat (constructor; [first [by left | by right; right]|]).
    constructor. }
  apply Forall_app_2; [apply safe_prompt_chars|].
  apply Forall_app_2; [|by apply strftime_chars].
  assert (Hlit : u "_" = [UNDERSCORE]) by (vm_compute; reflexivity).
  rewrite Hlit. constructor; [by right; right|constructor].
Qed.

(** X14. A run without an output name cannot leave [public/images]: for a
    valid clock reading the path it returns is [public/images/<name>.png]
    where every character of [<name>] is alphanumeric, a hyphen or an
    underscore -- whatever the prompt, the name holds no ["/"], no ["."]
    and no space. *)
Theorem generated_path_stays_in_public_images
    (prompt : pystr) (output_filename : option pystr) (verbose : bool)
    (w : world) (output_path : pystr) (w' : world) :
  generate_image prompt output_filename verbose w = (Return output_path, w') ->
  str_truthy output_filename = false ->
  valid_datetime (clock w) ->
  exists name,
    output_path = u "public/images/" ++ name ++ u ".png" /\
    Forall (fun c => isalnum c = true \/ c = HYPHEN \/ c = UNDERSCORE) name /\
    Forall (fun c => c <> 47 /\ c <> 46 /\ c <> SPACE) name.
Proof.
  intros Hrun Hout Hclock.
  apply generate_image_Return_path in Hrun as [-> _].
  exists (derived_filename prompt (clock w)).
  unfold target_path. rewrite Hout. split; [done|].
  pose proof (derived_filename_chars prompt _ Hclock) as Hsafe.
  split; [done|].
  eapply Forall_impl; [exact Hsafe|].
  intros c [Ha|[->| ->]]; [|done|done].
  repeat split; intros ->; discriminate Ha.
Qed.

End Generated_name.

(** ** The further properties on concrete runs *)

Module More_runs.
Import Demo.

(** X1 on a payload that is base64 for the three bytes [ABC], which is no
    image. *)
Lemma decode_error_run :
  let doc := api_response (JStr (u "QUJD")) in
  let r := Response 200 (u "OK") url (inl doc) in
  let w := world_with (Responded r) in
  environ w !! GOOGLE_API_KEY = Some (u "secret") /\
  u "secret" <> [] /\
  ~ (400 <= status_code r < 600)%Z /\
  extract_image_data (L := lib) doc = Return (JStr (u "QUJD")) /\
  (exists raw, b64decode (PyLib := lib) (JStr (u "QUJD")) = inl raw /\
               Image_open (PyLib := lib) raw =
                 inr (u "cannot identify image file")) /\
  fst (generate_image (L := lib) (u "a cat") None false w) =
    Raise (ValueError (u "Failed to decode image data: " ++
                       u "cannot identify image file")).
Proof.
  intros doc r w.
  assert (Hkey : environ w !! GOOGLE_API_KEY = Some (u "secret"))
    by reflexivity.
  assert (Hne : u "secret" <> []) by (vm_compute; discriminate).
  assert (Hstatus : ~ (400 <= status_code r < 600)%Z) by (cbn; lia).
  assert (Hdata : extract_image_data (L := lib) doc = Return (JStr (u "QUJD")))
    by (vm_compute; reflexivity).
  assert (Hfail : exists raw,
             b64decode (PyLib := lib) (JStr (u "QUJD")) = inl raw /\
             Image_open (PyLib := lib) raw =
               inr (u "cannot identify image file")).
  { exists [x41; x42; x43]. split; vm_compute; reflexivity. }
  repeat (split; [assumption|]).
  rewrite (undecodable_payload_is_a_decode_error (L := lib)
             (u "a cat") None false w (u "secret") r doc (JStr (u "QUJD"))
             (u "cannot identify image file")
             Hkey Hne eq_refl Hstatus eq_refl Hdata (or_intror Hfail)).
  reflexivity.
Defined.

(** X2 on a world whose credential is the empty string. *)
Lemma empty_credential_run :
  let w := World {[ GOOGLE_API_KEY := [] ]} noon (fun _ _ => TimedOut [])
                 [] [] [] ∅ ∅ in
  environ w !! GOOGLE_API_KEY = Some [] /\
  snd (main (L := lib) (Args (u "a cat") None true) w) = 1%Z /\
  sent (fst (main (L := lib) (Args (u "a cat") None true) w)) = [].
Proof.
  intros w.
  assert (Hkey : environ w !! GOOGLE_API_KEY = Some []) by reflexivity.
  split; [exact Hkey|].
  by rewrite (empty_credential_is_a_missing_credential (L := lib)
                (Args (u "a cat") None true) w Hkey).
Defined.

(** X3 on an answer whose body is an HTML page. *)
Lemma unparsable_body_run :
  let text := u "Expecting value: line 1 column 1 (char 0)" in
  let r := Response 200 (u "OK") url (inr text) in
  let w := world_with (Responded r) in
  let args := Args (u "a cat") None true in
  environ w !! GOOGLE_API_KEY = Some (u "secret") /\
  u "secret" <> [] /\
  ~ (400 <= status_code r < 600)%Z /\
  snd (main (L := lib) args w) = 1%Z /\
  stderr (fst (main (L := lib) args w)) = [ [0x274c] ++ u " Error: " ++ text ].
Proof.
  intros text r w args.
  assert (Hkey : environ w !! GOOGLE_API_KEY = Some (u "secret"))
    by reflexivity.
  assert (Hne : u "secret" <> []) by (vm_compute; discriminate).
  assert (Hstatus : ~ (400 <= status_code r < 600)%Z) by (cbn; lia).
  repeat (split; [assumption|]).
  destruct (unparsable_body_is_reported_as_error (L := lib)
              args w (u "secret") r text Hkey Hne eq_refl Hstatus eq_refl)
    as (_ & Hexit & Herr & _).
  by split.
Defined.

(** X4 on an answer that is an empty JSON list. *)
Lemma non_object_answer_run :
  let r := Response 200 (u "OK") url (inl (JArr [])) in
  let w := world_with (Responded r) in
  let args := Args (u "a cat") None true in
  environ w !! GOOGLE_API_KEY = Some (u "secret") /\
  u "secret" <> [] /\
  ~ (400 <= status_code r < 600)%Z /\
  (forall items, JArr [] <> JObj items) /\
  snd (main (L := lib) args w) = 1%Z /\
  stderr (fst (main (L := lib) args w)) =
    [ [0x274c] ++ u " Unexpected error: " ++
      u "object has no attribute 'get'" ].
Proof.
  intros r w args.
  assert (Hkey : environ w !! GOOGLE_API_KEY = Some (u "secret"))
    by reflexivity.
  assert (Hne : u "secret" <> []) by (vm_compute; discriminate).
  assert (Hstatus : ~ (400 <= status_code r < 600)%Z) by (cbn; lia).
  assert (Hdoc : forall items, JArr [] <> JObj items) by discriminate.
  repeat (split; [assumption|]).
  destruct (non_object_answer_is_an_unexpected_error (L := lib)
              args w (u "secret") r (JArr []) Hkey Hne eq_refl Hstatus
              eq_refl Hdoc)
    as (_ & Hexit & Herr & _).
  split; [exact Hexit|]. rewrite Herr. reflexivity.
Defined.

(** X6 on a rate-limited request without [--quiet]. *)
Lemma failing_run_stdout :
  let r := Response 429 (u "Too Many Requests") url (inl JNull) in
  let w := world_with (Responded r) in
  let args := Args (u "a cat") None false in
  fst (generate_image (L := lib) (prompt args) (output args)
         (negb (quiet args)) w) =
    Raise (ValueError (u "Rate limit exceeded. Please wait and try again.")) /\
  exists lines,
    stdout (fst (main (L := lib) args w)) = stdout w ++ lines /\
    (quiet args = true -> lines = []) /\
    (lines = [] \/
     lines = [ [0x1f4dd] ++ u " Prompt: " ++ prompt args;
               [0x1f3a8] ++ u " Generating image with Nano Banana..." ] \/
     lines = [ [0x1f4dd] ++ u " Prompt: " ++ prompt args;
               [0x1f3a8] ++ u " Generating image with Nano Banana...";
               [0x2705] ++ u " Image received from API";
               [0x1f4be] ++ u " Saving image..." ]).
Proof.
  intros r w args.
  assert (Hrun : fst (generate_image (L := lib) (prompt args) (output args)
                        (negb (quiet args)) w) =
                 Raise (ValueError
                          (u "Rate limit exceeded. Please wait and try again.")))
    by (vm_compute; reflexivity).
  split; [exact Hrun|].
  exact (failing_run_prints_no_success_line (L := lib) args w _ Hrun).
Defined.

(** X7 on a successful run. *)
Lemma one_file_run :
  let w := world_with (Responded (ok_response (api_response (JStr PNG_3x2)))) in
  let path := u "public/images/generated_a_cat_20240115_143022.png" in
  let w' := snd (generate_image (L := lib) (u "a cat") None false w) in
  generate_image (L := lib) (u "a cat") None false w = (Return path, w') /\
  is_Some (files w' !! path) /\
  files w' !! u "public/images/other.png" =
    files w !! u "public/images/other.png".
Proof.
  intros w path w'.
  assert (Hrun : generate_image (L := lib) (u "a cat") None false w =
                 (Return path, w')) by (vm_compute; reflexivity).
  split; [exact Hrun|].
  destruct (success_writes_exactly_one_file (L := lib) _ _ _ _ _ _ Hrun)
    as (Hsome & Hother & _).
  split; [exact Hsome|]. apply Hother. vm_compute. discriminate.
Defined.

(** X14 on the same run. *)
Lemma generated_path_run :
  let w := world_with (Responded (ok_response (api_response (JStr PNG_3x2)))) in
  let path := u "public/images/generated_a_cat_20240115_143022.png" in
  let w' := snd (generate_image (L := lib) (u "a cat") None false w) in
  generate_image (L := lib) (u "a cat") None false w = (Return path, w') /\
  valid_datetime (clock w) /\
  exists name,
    path = u "public/images/" ++ name ++ u ".png" /\
    Forall (fun c => isalnum (L := lib) c = true \/ c = HYPHEN \/ c = UNDERSCORE)
           name /\
    Forall (fun c => c <> 47 /\ c <> 46 /\ c <> SPACE) name.
Proof.
  intros w path w'.
  assert (Hrun : generate_image (L := lib) (u "a cat") None false w =
                 (Return path, w')) by (vm_compute; reflexivity).
  assert (Hclock : valid_datetime (clock w))
    by (unfold valid_datetime; cbn; lia).
  split; [exact Hrun|]. split; [exact Hclock|].
  exact (generated_path_stays_in_public_images (L := lib)
           _ _ _ _ _ _ Hrun eq_refl Hclock).
Defined.

(** X8 on two runs with the same prompt. *)
Lemma two_requests_run :
  let w := world_with (TimedOut (u "read timed out")) in
  environ w !! GOOGLE_API_KEY = Some (u "secret") /\
  u "secret" <> [] /\
  sent (snd (generate_image (L := lib) (u "a cat") None false
               (snd (generate_image (L := lib) (u "a cat") None false w)))) =
    [the_request (u "secret") (u "a cat"); the_request (u "secret") (u "a cat")].
Proof.
  intros w.
  assert (Hkey : environ w !! GOOGLE_API_KEY = Some (u "secret"))
    by reflexivity.
  assert (Hne : u "secret" <> []) by (vm_compute; discriminate).
  split; [exact Hkey|]. split; [exact Hne|].
  exact (two_invocations_issue_two_requests (L := lib)
           (u "a cat") (u "a cat") None None false false w (u "secret")
           Hkey Hne).
Defined.

(** X9 on an answer whose payload is followed by a part and by a
    candidate that are [null]. *)
Lemma nothing_after_run :
  let text := JObj [ (u "text", JStr (u "here it is")) ] in
  let inline := JObj [ (u "inlineData", JObj [ (u "data", JStr PNG_3x2) ]) ] in
  let second := JObj [ (u "content",
                        JObj [ (u "parts", JArr [text; inline; JNull]) ]) ] in
  let doc := answer [candidate (JStr []); second; JNull] in
  candidates_of doc = Some ([candidate (JStr [])] ++ second :: [JNull]) /\
  forallb passed_over [candidate (JStr [])] = true /\
  parts_of second = Some ([text] ++ inline :: [JNull]) /\
  forallb without_inline_data [text] = true /\
  extract_image_data (L := lib) doc = Return (JStr PNG_3x2).
Proof.
  intros text inline second doc.
  assert (H1 : candidates_of doc =
               Some ([candidate (JStr [])] ++ second :: [JNull]))
    by (vm_compute; reflexivity).
  assert (H2 : forallb passed_over [candidate (JStr [])] = true)
    by (vm_compute; reflexivity).
  assert (H3 : parts_of second = Some ([text] ++ inline :: [JNull]))
    by (vm_compute; reflexivity).
  assert (H4 : forallb without_inline_data [text] = true)
    by (vm_compute; reflexivity).
  repeat (split; [assumption|]).
  apply (nothing_after_the_payload_is_inspected (L := lib)
           doc _ _ _ _ _ _ _ H1 H2 H3 H4); vm_compute; reflexivity.
Defined.

(** X10 on an answer whose first inline-data field is an empty object and
    whose second candidate carries an image. *)
Lemma key_error_run :
  let broken := JObj [ (u "inlineData", JObj []) ] in
  let first := JObj [ (u "content", JObj [ (u "parts", JArr [broken]) ]) ] in
  let doc := answer [first; candidate (JStr PNG_3x2)] in
  candidates_of doc = Some ([] ++ first :: [candidate (JStr PNG_3x2)]) /\
  parts_of first = Some ([] ++ broken :: []) /\
  extract_image_data (L := lib) doc = Raise (KeyError (u "data")).
Proof.
  intros broken first doc.
  assert (H1 : candidates_of doc =
               Some ([] ++ first :: [candidate (JStr PNG_3x2)]))
    by (vm_compute; reflexivity).
  assert (H3 : parts_of first = Some ([] ++ broken :: []))
    by (vm_compute; reflexivity).
  split; [exact H1|]. split; [exact H3|].
  apply (inline_data_without_data_is_a_key_error (L := lib)
           doc [] first _ [] _ [] [] H1 eq_refl H3 eq_refl);
    vm_compute; reflexivity.
Defined.

(** X11 on a prompt that is a file name already. *)
Lemma safe_name_run :
  (length (u "sunset_over-Rome2") <= 30)%nat /\
  Forall (fun c => isalnum (L := lib) c = true \/ c = HYPHEN \/ c = UNDERSCORE)
         (u "sunset_over-Rome2") /\
  safe_prompt (L := lib) (u "sunset_over-Rome2") = u "sunset_over-Rome2".
Proof.
  assert (Hlen : (length (u "sunset_over-Rome2") <= 30)%nat)
    by (vm_compute; lia).
  assert (Hsafe : Forall (fun c => isalnum (L := lib) c = true \/
                                   c = HYPHEN \/ c = UNDERSCORE)
                         (u "sunset_over-Rome2")).
  { apply Forall_forall. intros c Hc%list_elem_of_In. vm_compute in Hc.
    repeat (destruct Hc as [<-|Hc];
            [first [by left | by right; left | by right; right]|]).
    destruct Hc. }
  split; [exact Hlen|]. split; [exact Hsafe|].
  exact (safe_prompt_keeps_a_safe_name (L := lib) _ Hlen Hsafe).
Defined.

End More_runs.
